(** * FloatChat-Minimal: intent classification and domain-prioritised search

    A shallow embedding of the query pipeline of the repository:
    - [web_search_tool.py]: [WebSearchTool.search] with its helpers
      [_extract_domain], [_is_disallowed_domain], [_extract_date] and
      [_sort_by_priority];
    - [agent_adk.py]: [FloatChatMinimal.classify_intent] and [enhance_query];
    - [api.py]: the [/search] endpoint.

    Conventions.  Python [str] is [string] (8-bit characters; [lower] acts on
    the letters A-Z, as Python's does on ASCII text).  Python [int] is [Z].
    Values decoded from the backend's JSON payload are [pyval].  Code that can
    raise lives in the [res] monad; a [try/except] is a [match] on it.  The
    outbound HTTP request is an explicit effect on a [Net] state that logs
    every request sent. *)

From Stdlib Require Import ZArith Ascii String DecimalString Sorted Permutation Lia.
From stdpp Require Import base option list strings gmap sorting.

Set Warnings "-register-all".
Local Open Scope string_scope.
Local Open Scope Z_scope.

(** ** Strings as the Python code uses them *)

Module Str.

(** [c.lower()] for one character. *)
Definition lower_char (c : ascii) : ascii :=
  let n := nat_of_ascii c in
  if (Nat.leb 65 n && Nat.leb n 90)%bool then ascii_of_nat (n + 32) else c.

(** [s.lower()] *)
Fixpoint lower (s : string) : string :=
  match s with
  | EmptyString => EmptyString
  | String c s' => String (lower_char c) (lower s')
  end.

(** [s.startswith(p)] *)
Fixpoint startswith (s p : string) : bool :=
  match p, s with
  | EmptyString, _ => true
  | String _ _, EmptyString => false
  | String a p', String b s' => if Ascii.eqb a b then startswith s' p' else false
  end.

(** [p in s] for two strings: [p] occurs in [s] as a contiguous substring. *)
Fixpoint contains (p s : string) : bool :=
  startswith s p ||
  match s with
  | EmptyString => false
  | String _ s' => contains p s'
  end.

(** [s[n:]] for [n >= 0]. *)
Fixpoint drop (n : nat) (s : string) : string :=
  match n, s with
  | O, _ => s
  | S _, EmptyString => EmptyString
  | S n', String _ s' => drop n' s'
  end.

(** [s[:n]] for [n >= 0]. *)
Fixpoint take (n : nat) (s : string) : string :=
  match n, s with
  | O, _ => EmptyString
  | S _, EmptyString => EmptyString
  | S n', String c s' => String c (take n' s')
  end.

(** [sep.join(parts)] *)
Fixpoint join (sep : string) (parts : list string) : string :=
  match parts with
  | [] => ""
  | [p] => p
  | p :: rest => p ++ sep ++ join sep rest
  end.

(** [s.find(c)] for a character: the first position of [c], if any. *)
Fixpoint find_char (c : ascii) (s : string) : option nat :=
  match s with
  | EmptyString => None
  | String a s' => if Ascii.eqb a c then Some O else S <$> find_char c s'
  end.

Definition has_char (c : ascii) (s : string) : bool :=
  match find_char c s with Some _ => true | None => false end.

(** The characters of [s], each as a one-character string (iterating a str). *)
Fixpoint chars (s : string) : list string :=
  match s with
  | EmptyString => []
  | String c s' => String c EmptyString :: chars s'
  end.

End Str.

(** ** Exceptions and the error monad *)

(** The exception classes the pipeline can meet.  The handlers of [search]
    distinguish [requests.RequestException] from every other [Exception]. *)
Inductive exn : Type :=
  | RequestException   (* requests: connection error, timeout, HTTP status, bad JSON body *)
  | AttributeError
  | TypeError
  | KeyError
  | ValueError
  | ValidationError.   (* pydantic *)

Inductive res (A : Type) : Type :=
  | Ok (a : A)
  | Raise (e : exn).
Arguments Ok {A} a.
Arguments Raise {A} e.

Global Instance res_ret : MRet res := fun _ a => Ok a.
Global Instance res_bind : MBind res := fun _ _ f m =>
  match m with
  | Ok a => f a
  | Raise e => Raise e
  end.

Global Instance res_fmap : FMap res := fun _ _ f m =>
  match m with
  | Ok a => Ok (f a)
  | Raise e => Raise e
  end.

Definition raises {A} (m : res A) : Prop := ∃ e, m = Raise e.

(** ** Python values decoded from JSON *)

(** What [response.json()] can produce.  The code observes a number only
    through its truth value, so a number carries just that. *)
Inductive pyval : Type :=
  | PyNone
  | PyBool (b : bool)
  | PyNum (nonzero : bool)
  | PyStr (s : string)
  | PyList (l : list pyval)
  | PyDict (kvs : list (string * pyval)).

Module Py.

(** Truth value of an object, as [if v:] and [v or w] test it. *)
Definition truthy (v : pyval) : bool :=
  match v with
  | PyNone => false
  | PyBool b => b
  | PyNum nz => nz
  | PyStr s => negb (String.eqb s "")
  | PyList l => match l with [] => false | _ => true end
  | PyDict kvs => match kvs with [] => false | _ => true end
  end.

(** [a or b] *)
Definition or (a b : pyval) : pyval := if truthy a then a else b.

(** Lookup in the key/value pairs of a dict. *)
Fixpoint assoc (k : string) (kvs : list (string * pyval)) : option pyval :=
  match kvs with
  | [] => None
  | (k', v) :: rest => if String.eqb k k' then Some v else assoc k rest
  end.

Definition is_str (k : string) (v : pyval) : bool :=
  match v with PyStr s => String.eqb s k | _ => false end.

(** [k in v] for a string [k]: substring test on a str, membership on a
    list, key test on a dict; [None], booleans and numbers are not
    containers. *)
Definition contains (k : string) (v : pyval) : res bool :=
  match v with
  | PyStr s => Ok (Str.contains k s)
  | PyList l => Ok (existsb (is_str k) l)
  | PyDict kvs => Ok (match assoc k kvs with Some _ => true | None => false end)
  | _ => Raise TypeError
  end.

(** [v[k]] for a string [k]. *)
Definition getitem (v : pyval) (k : string) : res pyval :=
  match v with
  | PyDict kvs => match assoc k kvs with Some x => Ok x | None => Raise KeyError end
  | _ => Raise TypeError
  end.

(** [v.get(k, dflt)]: only a dict has the method. *)
Definition get (v : pyval) (k : string) (dflt : pyval) : res pyval :=
  match v with
  | PyDict kvs => Ok (match assoc k kvs with Some x => x | None => dflt end)
  | _ => Raise AttributeError
  end.

(** The items a [for] loop draws from [v]. *)
Definition iter (v : pyval) : res (list pyval) :=
  match v with
  | PyList l => Ok l
  | PyDict kvs => Ok (map (fun kv => PyStr (fst kv)) kvs)
  | PyStr s => Ok (map PyStr (Str.chars s))
  | _ => Raise TypeError
  end.

(** [l[:k]] on a list, for any integer [k]. *)
Definition slice_to {A} (l : list A) (k : Z) : list A :=
  if k <? 0 then take (Z.to_nat (Z.of_nat (length l) + k)) l
  else take (Z.to_nat k) l.

(** [l.index(x)] on a list of strings, when [x] occurs. *)
Fixpoint index (x : string) (l : list string) : option nat :=
  match l with
  | [] => None
  | y :: rest => if String.eqb y x then Some O else S <$> index x rest
  end.

(** Validation of a pydantic field declared [str] (pydantic 2, which the
    ADK the repository builds on requires: a number is not coerced). *)
Definition as_str (v : pyval) : res string :=
  match v with PyStr s => Ok s | _ => Raise ValidationError end.

(** Validation of a pydantic field declared [Optional[str]]. *)
Definition as_opt_str (v : pyval) : res pyval :=
  match v with
  | PyNone | PyStr _ => Ok v
  | _ => Raise ValidationError
  end.

End Py.

(** ** web_search_tool.py *)

(** [class SearchResult(BaseModel)].  [published] and [updated] are declared
    [Optional[str]]; [search] assigns [published] after construction, which
    pydantic does not validate, so the field holds whatever the page metadata
    held. *)
Record SearchResult : Type := mkSearchResult {
  rank : Z;
  title : string;
  url : string;
  snippet : string;
  published : pyval;
  updated : pyval;
  source : string
}.

(** [SearchResult(rank=.., title=.., url=.., snippet=.., source=..)]: the
    constructor validates the [str] fields. *)
Definition SearchResult_new (rank : Z) (title url snippet : pyval) (source : string)
  : res SearchResult :=
  title ← Py.as_str title;
  url ← Py.as_str url;
  snippet ← Py.as_str snippet;
  mret (mkSearchResult rank title url snippet PyNone PyNone source).

Definition set_published (r : SearchResult) (v : pyval) : SearchResult :=
  mkSearchResult (rank r) (title r) (url r) (snippet r) v (updated r) (source r).

(** [self.priority_domains] *)
Definition priority_domains : list string :=
  [ "incois.gov.in";
    "argo.ucsd.edu";
    "doi.org";
    "www.ocean-ops.org";
    "www.usgodae.org";
    "www.seanoe.org";
    "www.ncei.noaa.gov";
    "www.jcommops.org";
    "www.euro-argo.eu";
    "www.ifremer.fr" ].

(** [self.disallowed_patterns] *)
Definition disallowed_patterns : list string :=
  [ "facebook.com"; "twitter.com"; "instagram.com";
    "contentfarm"; "ai-written"; "generated-content" ].

(** The [netloc] that [urllib.parse.urlparse] gives to a URL string, for
    URLs without leading blanks or control characters: an optional scheme,
    then after ["//"] everything up to the first of [/ ? #].  Unbalanced
    square brackets in it are a [ValueError]; what stands between balanced
    ones is not inspected here. *)
Module Url.

Definition is_alpha (c : ascii) : bool :=
  let n := nat_of_ascii c in
  ((Nat.leb 65 n && Nat.leb n 90) || (Nat.leb 97 n && Nat.leb n 122))%bool.

Definition is_scheme_char (c : ascii) : bool :=
  let n := nat_of_ascii c in
  (is_alpha c || (Nat.leb 48 n && Nat.leb n 57)
   || Nat.eqb n 43 || Nat.eqb n 45 || Nat.eqb n 46)%bool.

Fixpoint all_chars (f : ascii → bool) (s : string) : bool :=
  match s with
  | EmptyString => true
  | String c s' => (f c && all_chars f s')%bool
  end.

(** The URL with its scheme, if it has one, removed. *)
Definition strip_scheme (u : string) : string :=
  match u, Str.find_char ":" u with
  | String c _, Some (S i as n) =>
      if (is_alpha c && all_chars is_scheme_char (Str.take n u))%bool
      then Str.drop (S n) u else u
  | _, _ => u
  end.

Fixpoint until_delim (s : string) : string :=
  match s with
  | EmptyString => EmptyString
  | String c s' =>
      if (Ascii.eqb c "/" || Ascii.eqb c "?" || Ascii.eqb c "#")%bool
      then EmptyString else String c (until_delim s')
  end.

Definition netloc (u : string) : res string :=
  let rest := strip_scheme u in
  if Str.startswith rest "//" then
    let n := until_delim (Str.drop 2 rest) in
    if xorb (Str.has_char "[" n) (Str.has_char "]" n)
    then Raise ValueError else Ok n
  else Ok "".

End Url.

(** The [params] of the request sent to the Custom Search API. *)
Record SearchParams : Type := mkParams {
  p_key : string;
  p_cx : string;
  p_q : string;
  p_num : Z;
  p_safe : string;
  p_dateRestrict : option string
}.

(** How one request can end, seen from [search]: [requests.get] raises
    (no connection, timeout), [raise_for_status] raises (error status),
    [response.json()] raises (body is not JSON), or the decoded payload. *)
Inductive backend_reply : Type :=
  | GetRaises
  | StatusRaises
  | JsonRaises
  | Payload (data : pyval).

(** The network, observed through the requests sent so far. *)
Record Net : Type := mkNet { sent : list SearchParams }.

(** [sorted(l, key=key)] for keys that are triples of integers.  Tuples
    compare lexicographically; the sort is stable: an element is placed
    before the first element of the sorted tail whose key is not smaller. *)
Module Sort.

Definition key : Type := Z * Z * Z.

Definition ltb (a b : key) : bool :=
  let '(a1, a2, a3) := a in
  let '(b1, b2, b3) := b in
  (a1 <? b1) || ((a1 =? b1) && ((a2 <? b2) || ((a2 =? b2) && (a3 <? b3)))).

Definition leb (a b : key) : bool := negb (ltb b a).

Section Sorted.
Context {A : Type} (f : A → key).

Fixpoint insert (x : A) (l : list A) : list A :=
  match l with
  | [] => [x]
  | y :: l' => if ltb (f y) (f x) then y :: insert x l' else x :: y :: l'
  end.

Definition sorted (l : list A) : list A := foldr insert [] l.
End Sorted.

End Sort.

Section WebSearchTool.

(** [urlparse(url).netloc], from the standard library. *)
Variable urlparse_netloc : string → res string.

(** The search service: the reply it gives to a request. *)
Variable backend : SearchParams → backend_reply.

Variable api_key : string.

Definition base_url : string := "https://www.googleapis.com/customsearch/v1".
Definition cx : string := "017576662512468239146:omuauf_lfve".

(** [requests.get(self.base_url, params=params, timeout=10)] *)
Definition requests_get (params : SearchParams) (w : Net) : backend_reply * Net :=
  (backend params, mkNet (sent w ++ [params])).

(** [response.raise_for_status(); data = response.json()], with the
    failure of [requests.get] before them.  Whatever the class of the
    exception, [search] answers it the same way. *)
Definition response_json (reply : backend_reply) : res pyval :=
  match reply with
  | GetRaises | StatusRaises | JsonRaises => Raise RequestException
  | Payload data => Ok data
  end.

(** [_extract_domain]: any exception inside gives [""].  A [url] that is
    not a [str] always ends in one. *)
Definition _extract_domain (url : pyval) : string :=
  let body : res string :=
    match url with
    | PyStr u =>
        netloc ← urlparse_netloc u;
        let domain := Str.lower netloc in
        if Str.startswith domain "www." then mret (Str.drop 4 domain)
        else mret domain
    | _ => Raise TypeError
    end in
  match body with
  | Ok domain => domain
  | Raise _ => ""
  end.

(** [_is_disallowed_domain] *)
Definition _is_disallowed_domain (domain : string) : bool :=
  let domain_lower := Str.lower domain in
  existsb (fun pattern => Str.contains pattern domain_lower) disallowed_patterns.

Definition date_fields : list string :=
  [ "metatags"; "article"; "webpage"; "newsarticle" ].
Definition date_keys : list string :=
  [ "published_time"; "modified_time"; "date"; "publishdate" ].

(** The inner loop of [_extract_date]: the value of the first date key
    found in [item]. *)
Fixpoint first_date_key (item : pyval) (keys : list string) : res (option pyval) :=
  match keys with
  | [] => mret None
  | date_key :: keys' =>
      found ← Py.contains date_key item;
      if found : bool then Some <$> Py.getitem item date_key
      else first_date_key item keys'
  end.

(** The outer loop of [_extract_date]. *)
Fixpoint extract_date_fields (meta : pyval) (fields : list string) : res pyval :=
  match fields with
  | [] => mret PyNone
  | field :: fields' =>
      present ← Py.contains field meta;
      if present : bool then
        items ← Py.getitem meta field;
        match items with
        | PyList (item :: _) =>
            hit ← first_date_key item date_keys;
            match hit with
            | Some v => mret v
            | None => extract_date_fields meta fields'
            end
        | _ => extract_date_fields meta fields'
        end
      else extract_date_fields meta fields'
  end.

Definition _extract_date (meta : pyval) : res pyval :=
  extract_date_fields meta date_fields.

(** [priority_score], first component. *)
Definition priority_idx (domain : string) : Z :=
  match Py.index domain priority_domains with
  | Some i => Z.of_nat i
  | None => Z.of_nat (length priority_domains)
  end.

(** [priority_score], second component.  The [try] covers the three [in]
    tests; its handler gives 0. *)
Definition recency_score (result : SearchResult) : Z :=
  if Py.truthy (Py.or (published result) (updated result)) then
    let date_str := Py.or (published result) (updated result) in
    let body : res Z :=
      in2024 ← Py.contains "2024" date_str;
      recent ← (if in2024 : bool then mret true else Py.contains "2025" date_str);
      if recent : bool then mret (-1)
      else
        in2023 ← Py.contains "2023" date_str;
        if in2023 : bool then mret 0 else mret 1 in
    match body with
    | Ok score => score
    | Raise _ => 0
    end
  else 0.

Definition priority_score (result : SearchResult) : Sort.key :=
  (priority_idx (source result), recency_score result, rank result).

(** [_sort_by_priority] *)
Definition _sort_by_priority (results : list SearchResult) : list SearchResult :=
  Sort.sorted priority_score results.

(** The body of the loop [for idx, item in enumerate(items)], for the item
    at position [idx]: [None] when the item is skipped ([continue]). *)
Definition parse_item (idx : Z) (item : pyval) : res (option SearchResult) :=
  url ← Py.get item "link" (PyStr "");
  let domain := _extract_domain url in
  if _is_disallowed_domain domain then mret None
  else
    title ← Py.get item "title" (PyStr "");
    snippet ← Py.get item "snippet" (PyStr "");
    result ← SearchResult_new (idx + 1) title url snippet domain;
    has_pagemap ← Py.contains "pagemap" item;
    result ← (if has_pagemap : bool then
                meta ← Py.getitem item "pagemap";
                date ← _extract_date meta;
                mret (set_published result date)
              else mret result);
    mret (Some result).

(** The loop itself, from position [idx] on: the results appended. *)
Fixpoint parse_items (idx : Z) (items : list pyval) : res (list SearchResult) :=
  match items with
  | [] => mret []
  | item :: items' =>
      parsed ← parse_item idx item;
      rest ← parse_items (idx + 1) items';
      mret (match parsed with Some result => result :: rest | None => rest end)
  end.

Definition date_restrict (time_range : string) : option string :=
  if String.eqb time_range "any" then None
  else Some (if String.eqb time_range "week" then "d7"
             else if String.eqb time_range "month" then "m1"
             else "y1").

Definition build_params (query : string) (site_filter : option (list string))
    (time_range : string) (top_k : Z) : SearchParams :=
  let q :=
    match site_filter with
    | Some ((_ :: _) as domains) =>
        let site_query := Str.join " OR " (map (fun domain => "site:" ++ domain) domains) in
        query ++ " (" ++ site_query ++ ")"
    | _ => query
    end in
  mkParams api_key cx q (Z.min top_k 10) "active" (date_restrict time_range).

(** The [try] block of [search]. *)
Definition search_try (query : string) (site_filter : option (list string))
    (time_range : string) (top_k : Z) (w : Net) : res (list SearchResult) * Net :=
  let params := build_params query site_filter time_range top_k in
  let '(reply, w) := requests_get params w in
  (data ← response_json reply;
   items ← Py.get data "items" (PyList []);
   items ← Py.iter items;
   results ← parse_items 0 items;
   let results := _sort_by_priority results in
   mret (Py.slice_to results top_k),
   w).

(** [search]: both handlers answer with no results. *)
Definition search (query : string) (site_filter : option (list string))
    (time_range : string) (top_k : Z) (w : Net) : list SearchResult * Net :=
  let '(outcome, w) := search_try query site_filter time_range top_k w in
  match outcome with
  | Ok results => (results, w)
  | Raise RequestException => ([], w)
  | Raise _ => ([], w)
  end.

End WebSearchTool.

(** ** agent_adk.py *)

Module Agent.

(** [self.intent_patterns]: a dict literal, iterated in insertion order. *)
Definition intent_patterns : list (string * list string) :=
  [ ("program_overview",
      [ "what is argo";
        "how does argo work";
        "variables measured by argo";
        "argo program";
        "argo floats";
        "argo network" ]);
    ("indian_ocean_status",
      [ "indian ocean argo";
        "status of argo floats in arabian sea";
        "bay of bengal floats";
        "bay of bengal";
        "bengal salinity";
        "salinity level";
        "argo india";
        "incois argo";
        "indian ocean status" ]);
    ("find_data_access",
      [ "where to download argo data";
        "get argo profiles";
        "how to access argo netcdf";
        "argo data download";
        "gdac";
        "argo ftp" ]);
    ("nearest_floats_concept",
      [ "nearest argo floats to";
        "floats near";
        "closest argo to coordinates";
        "argo map";
        "find argo floats" ]) ].

(** [self.enhanced_queries] *)
Definition enhanced_queries : gmap string string :=
  <["program_overview" :=
      "Argo program overview what variables measured temperature salinity pressure ocean profiling floats how it works"]>
  (<["indian_ocean_status" :=
      "Indian Ocean Argo floats status current number active INCOIS Arabian Sea Bay Bengal distribution"]>
  (<["find_data_access" :=
      "Argo data download access GDAC global data assembly centers netCDF files instructions how to"]>
  (<["nearest_floats_concept" :=
      "Argo float interactive map finder location coordinates nearest search tools ocean-ops"]>
   ∅))).

(** A pattern without regular-expression operators: lower-case letters and
    blanks only.  [re.search] with such a pattern is a substring search. *)
Definition literal_char (c : ascii) : bool :=
  let n := nat_of_ascii c in
  (Nat.eqb n 32 || (Nat.leb 97 n && Nat.leb n 122))%bool.

Definition literal_pattern (p : string) : bool := Url.all_chars literal_char p.

(** [re.search(pattern, text)] is not [None], for a literal pattern. *)
Definition re_search (pattern text : string) : bool := Str.contains pattern text.

(** The inner loop of [classify_intent]: some pattern of the intent matches. *)
Definition any_pattern (patterns : list string) (text : string) : bool :=
  existsb (fun pattern => re_search pattern text) patterns.

(** The outer loop over [self.intent_patterns.items()], on the lower-cased
    text: the first intent with a matching pattern is returned; after the
    loop, the default. *)
Fixpoint scan_intents (table : list (string * list string)) (text : string) : string :=
  match table with
  | [] => "program_overview"
  | (intent, patterns) :: table' =>
      if any_pattern patterns text then intent else scan_intents table' text
  end.

Definition classify_intent (user_text : string) : string :=
  let user_text_lower := Str.lower user_text in
  scan_intents intent_patterns user_text_lower.

(** [d[k]] on the hint table. *)
Definition hint_getitem (k : string) : res string :=
  match enhanced_queries !! k with
  | Some v => Ok v
  | None => Raise KeyError
  end.

(** [enhance_query]: the default argument of [.get] is evaluated first. *)
Definition enhance_query (user_text intent : string) : res string :=
  dflt ← hint_getitem "program_overview";
  let base_query := default dflt (enhanced_queries !! intent) in
  let enhanced := user_text ++ " " ++ base_query in
  mret enhanced.

(** The intents: the keys of the pattern table. *)
Definition intents : list string := map fst intent_patterns.

End Agent.

(** ** api.py: the [/search] endpoint *)

Record SearchRequest : Type := mkSearchRequest {
  query : string;
  site_filter : option (list string);
  time_range : string;
  top_k : Z
}.

(** What the endpoint answers: the results, or an [HTTPException] with its
    status code and detail. *)
Inductive http_response : Type :=
  | Http200 (results : list SearchResult)
  | HTTPException (status_code : Z) (detail : string).

Section Api.

Variable urlparse_netloc : string → res string.
Variable backend : SearchParams → backend_reply.
Variable api_key : string.

(** The endpoint rebuilds each result as its own [SearchResult] model,
    which validates the two optional fields. *)
Definition api_result (result : SearchResult) : res SearchResult :=
  pub ← Py.as_opt_str (published result);
  upd ← Py.as_opt_str (updated result);
  mret (mkSearchResult (rank result) (title result) (url result) (snippet result)
          pub upd (source result)).

(** [async def search(request: SearchRequest)].  The two checks raise the
    400 answers, which the first handler passes on; any other exception
    becomes a 500, whose detail is given without the exception's own text.
    The response's timestamp is left out. *)
Definition api_search (request : SearchRequest) (w : Net) : http_response * Net :=
  if (top_k request <? 1) || (top_k request >? 10) then
    (HTTPException 400 "top_k must be between 1 and 10", w)
  else if negb (existsb (String.eqb (time_range request)) ["any"; "year"; "month"; "week"]) then
    (HTTPException 400 "Invalid time_range", w)
  else
    let '(results, w) :=
      search urlparse_netloc backend api_key
        (query request) (site_filter request) (time_range request) (top_k request) w in
    match mapM api_result results with
    | Ok results => (Http200 results, w)
    | Raise _ => (HTTPException 500 "Search failed", w)
    end.

End Api.

(** ** api.py: the [/health] endpoint *)

(** What [/health] answers: the component states of the healthy answer, or
    the text of the exception. *)
Inductive health_response : Type :=
  | Healthy (agent search_tool api_key_state : string)
  | Unhealthy (error : string).

(** Truth value of a [SearchResponse]: a pydantic model defines neither
    [__bool__] nor [__len__], so an instance is true whatever it holds. *)
Definition SearchResponse_truthy (results : list SearchResult) : bool := true.

Section Health.

Variable urlparse_netloc : string → res string.
Variable backend : SearchParams → backend_reply.
Variable api_key : string.

(** [async def health_check()]: one test search with [top_k=1] and the
    defaults of [search] for the rest.  Nothing in the [try] block can
    raise, [search] having handlers of its own.  The timestamp is left
    out. *)
Definition health_check (w : Net) : health_response * Net :=
  let '(test_response, w) := search urlparse_netloc backend api_key "test" None "year" 1 w in
  (Healthy "ok"
     (if SearchResponse_truthy test_response then "ok" else "error")
     (if negb (String.eqb api_key "") then "configured" else "missing"),
   w).

End Health.

(** ** api_adk.py *)

Module Adk.

(** [class ChatRequest(BaseModel)] *)
Record ChatRequest : Type := mkChatRequest {
  query : string;
  session_id : option string
}.

(** [class SearchRequest(BaseModel)] *)
Record SearchRequest : Type := mkSearchRequest {
  s_query : string;
  s_site_filter : option (list string);
  s_time_range : option string;
  s_top_k : option Z
}.

(** [class FloatChatResponse(BaseModel)] *)
Record FloatChatResponse : Type := mkFloatChatResponse {
  response : string;
  intent : string;
  sources : option (list string);
  timestamp : string
}.

(** What an endpoint answers: its value, or the [HTTPException] it raises,
    given by its status code and the [error] of its detail. *)
Inductive answer (A : Type) : Type :=
  | Answer (a : A)
  | Failure (status_code : Z) (error : string).
Arguments Answer {A} a.
Arguments Failure {A} status_code error.

Definition overview_text : string :=
  "The Argo program is a global ocean observation system that uses autonomous floats to collect temperature, salinity, and pressure data from the world's oceans.

**Key Facts:**
- Over 4,000 active floats worldwide
- Measures temperature, salinity, and pressure every 10 days
- Data covers from surface to 2,000 meters depth
- International collaboration between 30+ countries

The floats drift with ocean currents and surface periodically to transmit data via satellite. This creates a comprehensive 3D picture of ocean conditions.".

Definition indian_ocean_text : string :=
  "**Indian Ocean Argo Status & Salinity Data:**

- **Total floats:** ~400 active floats
- **INCOIS role:** Indian National Centre for Ocean Information Services coordinates Indian Ocean operations
- **Key regions:** Arabian Sea, Bay of Bengal, Andaman Sea
- **Data coverage:** From 20°S to 30°N latitude

**Bay of Bengal Salinity Characteristics:**
- Surface salinity: 28-34 PSU (varies seasonally)
- Influenced by: Ganges-Brahmaputra river discharge, monsoon rains
- Argo floats measure salinity profiles from surface to 2,000m depth
- Data available: Real-time and delayed-mode quality controlled

**Current focus areas:**
- Monsoon prediction and variability
- Climate change impacts on salinity
- Ocean circulation and mixing processes
- Fisheries and marine ecosystem studies

For specific salinity data, visit: https://www.incois.gov.in/argo/".

Definition data_access_text : string :=
  "**Accessing Argo Data:**

1. **Primary source:** Global Data Assembly Centers (GDAC)
   - US GDAC: https://www.usgodae.org/argo/argo.html
   - French GDAC: https://www.ifremer.fr/en/

2. **Data format:** NetCDF files
3. **Tools:** 
   - Argo Online School: https://argo.ucsd.edu/
   - OceanOPS: https://www.ocean-ops.org/

4. **Real-time data:** Available within hours of transmission".

Definition nearest_floats_text : string :=
  "**Finding Argo Floats:**

- **Interactive maps:** 
  - OceanOPS float map: https://www.ocean-ops.org/board
  - Argo float viewer: https://argo.ucsd.edu/

- **Search methods:**
  - By coordinates (latitude/longitude)
  - By region or country
  - By float ID number

- **Real-time tracking:** Most floats report position and data every 10 days".

Definition fallback_text (query : string) : string :=
  "I understand you're asking about Argo oceanographic data. Based on your query '" ++ query ++ "', I can help you with information about the Argo program, float locations, data access, or Indian Ocean operations. Could you please provide more details about what you'd like to know?".

(** The [if]/[elif] chain of [chat_endpoint] that picks the text. *)
Definition response_text (intent query : string) : string :=
  if String.eqb intent "program_overview" then overview_text
  else if String.eqb intent "indian_ocean_status" then indian_ocean_text
  else if String.eqb intent "find_data_access" then data_access_text
  else if String.eqb intent "nearest_floats_concept" then nearest_floats_text
  else fallback_text query.

(** [async def chat_endpoint(request)], with the reading of the clock as
    [now].  Any exception of the body becomes a 500. *)
Definition chat_endpoint (now : string) (request : ChatRequest) : answer FloatChatResponse :=
  let body : res FloatChatResponse :=
    let intent := Agent.classify_intent (query request) in
    enhanced_query ← Agent.enhance_query (query request) intent;
    let response_text := response_text intent (query request) in
    mret (mkFloatChatResponse response_text intent
            (Some [ "argo.ucsd.edu"; "ocean-ops.org" ]) now) in
  match body with
  | Ok response => Answer response
  | Raise _ => Failure 500 "Internal server error"
  end.

(** [obj.name] on a [FloatChatResponse]: its four fields; a name that is
    neither a field nor a method of the model is an [AttributeError]. *)
Definition FloatChatResponse_getattr (obj : FloatChatResponse) (name : string) : res pyval :=
  if String.eqb name "response" then Ok (PyStr (response obj))
  else if String.eqb name "intent" then Ok (PyStr (intent obj))
  else if String.eqb name "sources" then
    Ok (match sources obj with
        | Some l => PyList (map PyStr l)
        | None => PyNone
        end)
  else if String.eqb name "timestamp" then Ok (PyStr (timestamp obj))
  else Raise AttributeError.

(** One entry of the ["results"] list of [search_endpoint]. *)
Definition search_result_of (source : pyval) : res pyval :=
  title ← Py.get source "title" (PyStr "");
  url ← Py.get source "url" (PyStr "");
  src ← Py.get source "source" (PyStr "");
  mret (PyDict [ ("title", title); ("url", url); ("source", src);
                 ("snippet", PyStr "From ADK web search results") ]).

(** [async def search_endpoint(request)]: it delegates to [chat_endpoint]
    and reads [response.sources_used].  An [HTTPException] of the chat
    endpoint is an [Exception] too: the handler replaces it. *)
Definition search_endpoint (now : string) (request : SearchRequest) : answer pyval :=
  let chat_request := mkChatRequest (s_query request) None in
  match chat_endpoint now chat_request with
  | Failure _ _ => Failure 500 "Search failed"
  | Answer response =>
      let body : res pyval :=
        sources_used ← FloatChatResponse_getattr response "sources_used";
        sources_used ← Py.iter sources_used;
        results ← mapM search_result_of sources_used;
        mret (PyDict [ ("query", PyStr (s_query request));
                       ("results", PyList results);
                       ("timestamp", PyStr now) ]) in
      match body with
      | Ok search_response => Answer search_response
      | Raise _ => Failure 500 "Search failed"
      end
  end.

(** The JSON body FastAPI sends for a [FloatChatResponse]. *)
Definition FloatChatResponse_json (obj : FloatChatResponse) : pyval :=
  PyDict [ ("response", PyStr (response obj));
           ("intent", PyStr (intent obj));
           ("sources", match sources obj with
                       | Some l => PyList (map PyStr l)
                       | None => PyNone
                       end);
           ("timestamp", PyStr (timestamp obj)) ].

End Adk.

(** ** streamlit_app.py *)

Module App.

(** The column lists of a table block, [df_data], for column names that are
    strings and rows that are lists: column [i] takes cell [i] of every row,
    and [""] where the row is too short. *)
Definition column_cells (i : nat) (rows : list (list pyval)) : list pyval :=
  map (fun row => default (PyStr "") (row !! i)) rows.

(** The loop [for i, col in enumerate(columns): df_data[col] = ...], from
    position [i] on. *)
Fixpoint df_data_from (i : nat) (columns : list string) (rows : list (list pyval))
    (df_data : gmap string (list pyval)) : gmap string (list pyval) :=
  match columns with
  | [] => df_data
  | col :: columns' =>
      df_data_from (S i) columns' rows (<[col := column_cells i rows]> df_data)
  end.

(** The frame given to [st.dataframe], when there is one: [if rows and
    columns]. *)
Definition table_frame (columns : list string) (rows : list (list pyval))
  : option (gmap string (list pyval)) :=
  match rows, columns with
  | _ :: _, _ :: _ => Some (df_data_from 0 columns rows ∅)
  | _, _ => None
  end.

(** The sidebar's "Sources Used": the domains written with [st.text], in
    order.  A source is a [Dict[str, str]], as the API declares them. *)
Fixpoint sidebar_domains_from (unique_domains : gset string)
    (sources_used : list (gmap string string)) : list string :=
  match sources_used with
  | [] => []
  | source :: rest =>
      let domain := default "unknown" (source !! "domain") in
      if decide (domain ∈ unique_domains)
      then sidebar_domains_from unique_domains rest
      else domain :: sidebar_domains_from ({[ domain ]} ∪ unique_domains) rest
  end.

Definition sidebar_domains (sources_used : list (gmap string string)) : list string :=
  sidebar_domains_from ∅ sources_used.

(** [l[-n:]] on a list, for [n > 0]. *)
Definition last_n {A : Type} (n : nat) (l : list A) : list A :=
  drop (length l - n) l.

(** "Recent Queries": [enumerate(reversed(chat_history[-5:]))], each entry
    with the number [len(chat_history) - i] of its label. *)
Definition recent_queries {A : Type} (chat_history : list A) : list (Z * A) :=
  imap (fun i chat => (Z.of_nat (length chat_history) - Z.of_nat i, chat))
       (reverse (last_n 5 chat_history)).

End App.

(** ** streamlit_app_adk.py *)

Module AppAdk.

Section Sources.
Context {A : Type} `{EqDecision A}.

(** [if source not in sources_used: sources_used.append(source)] *)
Definition add_source (sources_used : list A) (source : A) : list A :=
  if decide (source ∈ sources_used) then sources_used else sources_used ++ [source].

(** The loop over the sources of one response. *)
Definition update_sources (sources_used sources : list A) : list A :=
  foldl add_source sources_used sources.

End Sources.

(** [response_data.get("streamlit_blocks", [])] and
    [response.get("sources_used", [])] on the JSON of an answer. *)
Definition blocks_of (response_data : pyval) : res pyval :=
  Py.get response_data "streamlit_blocks" (PyList []).

Definition sources_of (response_data : pyval) : res pyval :=
  Py.get response_data "sources_used" (PyList []).

End AppAdk.

(** * Vocabulary of the properties *)

(** The order on keys, as Python compares tuples. *)
Module KeyOrder.

Definition lt (a b : Sort.key) : Prop :=
  a.1.1 < b.1.1 ∨ (a.1.1 = b.1.1 ∧ (a.1.2 < b.1.2 ∨ (a.1.2 = b.1.2 ∧ a.2 < b.2))).

Definition le (a b : Sort.key) : Prop :=
  a.1.1 < b.1.1 ∨ (a.1.1 = b.1.1 ∧ (a.1.2 < b.1.2 ∨ (a.1.2 = b.1.2 ∧ a.2 ≤ b.2))).

Definition key_le {A : Type} (f : A → Sort.key) (x y : A) : Prop := le (f x) (f y).

End KeyOrder.

Module Rank.

(** Ascending order of two results by their sort key. *)
Definition score_le (a b : SearchResult) : Prop :=
  KeyOrder.le (priority_score a) (priority_score b).

End Rank.

Module Recency.

(** The value the recency test reads: [result.published or result.updated]. *)
Definition date_of (r : SearchResult) : pyval := Py.or (published r) (updated r).

(** A result without a date: both fields are [None] or empty. *)
Definition undated (r : SearchResult) : Prop := Py.truthy (date_of r) = false.

(** The four decimal digits of a year. *)
Definition year_string (y : nat) : string := NilEmpty.string_of_uint (Nat.to_uint y).

(** The tie-break as the specification words it, for a calendar year
    [now]: a result whose [published] string is a date of that year comes
    before a result without dates that has the same priority index. *)
Definition current_year_first (now : nat) : Prop :=
  ∀ (a b : SearchResult) (s : string),
    priority_idx (source a) = priority_idx (source b) →
    published a = PyStr s →
    Str.startswith s (year_string now) = true →
    published b = PyNone → updated b = PyNone →
    _sort_by_priority [b; a] = [a; b].

End Recency.

Module Domain.

(** The entries of the priority list that begin with ["www."]. *)
Definition www_entries : list string :=
  List.filter (fun d => Str.startswith d "www.") priority_domains.

Definition bare_entries : list string :=
  [ "incois.gov.in"; "argo.ucsd.edu"; "doi.org" ].

(** The specification's reading: a priority index below the length of the
    list is reached only by the three entries without ["www."]. *)
Definition only_bare_entries_rank (netloc : string → res string) : Prop :=
  ∀ u : string,
    priority_idx (_extract_domain netloc (PyStr u)) < Z.of_nat (length priority_domains) →
    _extract_domain netloc (PyStr u) ∈ bare_entries.

End Domain.

Module Parse.

Definition is_dict (v : pyval) : bool :=
  match v with PyDict _ => true | _ => false end.

Definition is_iterable (v : pyval) : bool :=
  match v with PyList _ | PyDict _ | PyStr _ => true | _ => false end.

End Parse.

Module Search.

(** The part of the [try] block that reads the decoded payload, up to
    the list handed to the ranker. *)
Definition payload_results (netloc : string → res string) (data : pyval)
  : res (list SearchResult) :=
  items ← Py.get data "items" (PyList []);
  items ← Py.iter items;
  parse_items netloc 0 items.

(** The backend call failed: the request, the status check or the JSON
    decoding raised, or the payload makes the parsing code raise. *)
Definition backend_failed (netloc : string → res string) (reply : backend_reply) : Prop :=
  match reply with
  | GetRaises | StatusRaises | JsonRaises => True
  | Payload data => raises (payload_results netloc data)
  end.

End Search.

Module Endpoint.

Definition time_ranges : list string := [ "any"; "week"; "month"; "year" ].

Definition valid (request : SearchRequest) : Prop :=
  1 ≤ top_k request ≤ 10 ∧ time_range request ∈ time_ranges.

End Endpoint.

Module Classify.
Import Agent.

(** [text] matches some pattern of the intent declared at position [i]. *)
Definition matches_at (i : nat) (text : string) : Prop :=
  ∃ intent patterns,
    intent_patterns !! i = Some (intent, patterns) ∧ any_pattern patterns text = true.

Definition no_match_before (i : nat) (text : string) : Prop :=
  ∀ j intent patterns,
    (j < i)%nat → intent_patterns !! j = Some (intent, patterns) →
    any_pattern patterns text = false.

(** The priority rule as the specification words it: whenever the text
    matches a pattern of [A] and a pattern of [B], and [A] is declared
    before [B], the classifier returns [A]. *)
Definition earlier_of_two_wins : Prop :=
  ∀ (T : string) (i j : nat) (A B : string) (pa pb : list string),
    intent_patterns !! i = Some (A, pa) →
    intent_patterns !! j = Some (B, pb) →
    (i < j)%nat →
    any_pattern pa (Str.lower T) = true →
    any_pattern pb (Str.lower T) = true →
    classify_intent T = A.

End Classify.

Module Enhance.
Import Agent.

(** The hint of the default intent. *)
Definition default_hint : string :=
  "Argo program overview what variables measured temperature salinity pressure ocean profiling floats how it works".

(** The hint [enhance_query] appends for an intent. *)
Definition hint_for (intent : string) : string :=
  default default_hint (enhanced_queries !! intent).

End Enhance.

(** ** Sample inputs *)

Definition ex_result (rank : Z) (source : string) (published : pyval) : SearchResult :=
  mkSearchResult rank "" ("https://" ++ source ++ "/") "" published PyNone source.

Definition ex_unknown : SearchResult := ex_result 1 "unknown.example" PyNone.
Definition ex_argo : SearchResult := ex_result 2 "argo.ucsd.edu" PyNone.
Definition ex_incois : SearchResult := ex_result 3 "incois.gov.in" PyNone.

Definition ex_dated_2025 : SearchResult := ex_result 2 "argo.ucsd.edu" (PyStr "2025-06-01").
Definition ex_dated_2026 : SearchResult := ex_result 1 "argo.ucsd.edu" (PyStr "2026-03-01").
Definition ex_undated : SearchResult := ex_result 2 "argo.ucsd.edu" PyNone.
Definition ex_epoch_2021 : SearchResult := ex_result 1 "doi.org" (PyStr "1620245000").

Definition ex_hit (link title : string) : pyval :=
  PyDict [ ("title", PyStr title); ("link", PyStr link); ("snippet", PyStr "") ].

(** A backend that answers every request with the same four hits. *)
Definition ex_backend (_ : SearchParams) : backend_reply :=
  Payload (PyDict [ ("items", PyList
    [ ex_hit "https://example.org/argo" "a blog";
      ex_hit "https://www.facebook.com/argo" "a post";
      ex_hit "https://argo.ucsd.edu/about" "About Argo";
      ex_hit "https://incois.gov.in/argo" "INCOIS Argo" ]) ]).

(** A backend whose payload is not an object. *)
Definition ex_backend_malformed (_ : SearchParams) : backend_reply :=
  Payload (PyList [ PyStr "oops" ]).

Definition ex_request (time_range : string) (top_k : Z) : SearchRequest :=
  mkSearchRequest "argo floats" None time_range top_k.

(** ** Vocabulary of the further properties *)

Module Order.

(** [a] stands before [b] in [l]. *)
Definition before {A : Type} (a b : A) (l : list A) : Prop :=
  ∃ l1 l2 l3 : list A, l = (l1 ++ a :: l2 ++ b :: l3)%list.

(** The results of [l] whose sort key is [k], in the order of [l]. *)
Definition with_key (k : Sort.key) (l : list SearchResult) : list SearchResult :=
  List.filter (fun r => bool_decide (priority_score r = k)) l.

End Order.

(** A recent page of an unlisted site, first in the backend's order. *)
Definition ex_dated_2025x : SearchResult := ex_result 1 "blog.example" (PyStr "2025-01-15").

Module Hits.

(** The hit is an object whose link leads to an allowed domain. *)
Definition allowed (netloc : string → res string) (item : pyval) : bool :=
  match Py.get item "link" (PyStr "") with
  | Ok link => negb (_is_disallowed_domain (_extract_domain netloc link))
  | Raise _ => false
  end.

(** The list the loop of [search] iterates over. *)
Definition items_of (data : pyval) : res (list pyval) :=
  Py.get data "items" (PyList []) ≫= Py.iter.

(** The plain substring test of the deny-list, without lower-casing. *)
Definition denied_as_is (domain : string) : bool :=
  existsb (fun pattern => Str.contains pattern domain) disallowed_patterns.

End Hits.

Module Pagemap.

(** A list of objects. *)
Definition dict_list (v : pyval) : bool :=
  match v with
  | PyList l => forallb Parse.is_dict l
  | _ => false
  end.

(** The shape the search API gives a [pagemap]: an object whose values are
    lists of objects. *)
Definition well_shaped (meta : pyval) : bool :=
  match meta with
  | PyDict kvs => forallb (fun kv => dict_list kv.2) kvs
  | _ => false
  end.

(** [v] stands under one of [keys] in the first entry of one of [fields]. *)
Definition holds_under (fields keys : list string) (meta v : pyval) : Prop :=
  ∃ kvs field item rest date_key,
    meta = PyDict kvs ∧ field ∈ fields ∧ date_key ∈ keys
    ∧ Py.assoc field kvs = Some (PyList (PyDict item :: rest))
    ∧ Py.assoc date_key item = Some v.

Definition holds_date (meta v : pyval) : Prop := holds_under date_fields date_keys meta v.

(** A list cut down to its first entry. *)
Definition head_only (v : pyval) : pyval :=
  match v with
  | PyList (x :: _) => PyList [x]
  | _ => v
  end.

(** The pagemap with every list cut down to its first entry. *)
Definition heads (meta : pyval) : pyval :=
  match meta with
  | PyDict kvs => PyDict (map (fun kv => (kv.1, head_only kv.2)) kvs)
  | _ => meta
  end.

End Pagemap.

Definition ex_pagemap : pyval :=
  PyDict [ ("cse_thumbnail", PyList [ PyDict [ ("width", PyStr "225") ] ]);
           ("metatags", PyList [ PyDict [ ("og:title", PyStr "Argo");
                                          ("modified_time", PyStr "2025-02-01");
                                          ("published_time", PyStr "2024-11-30") ];
                                 PyDict [ ("date", PyStr "1999") ] ]);
           ("article", PyList [ PyDict [ ("date", PyStr "2023-01-01") ] ]) ].

Module Strict.

(** Strictly ascending order of two results by their sort key. *)
Definition score_lt (a b : SearchResult) : Prop :=
  KeyOrder.lt (priority_score a) (priority_score b).

End Strict.

(** A hit with page metadata. *)
Definition ex_hit_dated (link title : string) (meta : pyval) : pyval :=
  PyDict [ ("title", PyStr title); ("link", PyStr link); ("snippet", PyStr "");
           ("pagemap", meta) ].

Module Dates.

(** A value a field declared [Optional[str]] accepts. *)
Definition text_or_none (v : pyval) : bool :=
  match v with
  | PyNone | PyStr _ => true
  | _ => false
  end.

End Dates.

(** A backend whose one hit carries a number as its date. *)
Definition ex_backend_numeric_date (_ : SearchParams) : backend_reply :=
  Payload (PyDict [ ("items", PyList
    [ ex_hit_dated "https://argo.ucsd.edu/about" "About Argo"
        (PyDict [ ("metatags", PyList [ PyDict [ ("date", PyNum true) ] ]) ]) ]) ]).

Module Shadow.

(** Patterns of later intents that contain "argo floats", a pattern of the
    first intent. *)
Definition shadowed : list string :=
  [ "status of argo floats in arabian sea"; "nearest argo floats to"; "find argo floats" ].

End Shadow.

Module AdkTexts.

(** The four texts the chat endpoint of api_adk.py can answer with. *)
Definition canned : list string :=
  [ Adk.overview_text; Adk.indian_ocean_text; Adk.data_access_text;
    Adk.nearest_floats_text ].

(** The answer of the chat endpoint for a query classified as [intent]. *)
Definition answer_for (now intent query : string) : Adk.FloatChatResponse :=
  Adk.mkFloatChatResponse (Adk.response_text intent query) intent
    (Some [ "argo.ucsd.edu"; "ocean-ops.org" ]) now.

End AdkTexts.

Module Sidebar.


End Sidebar.

Definition ex_sources : list (gmap string string) :=
  [ {[ "domain" := "argo.ucsd.edu"; "title" := "About Argo" ]};
    {[ "title" := "untitled" ]};
    {[ "domain" := "incois.gov.in" ]};
    {[ "domain" := "argo.ucsd.edu"; "title" := "Argo data" ]} ].

Definition ex_rows : list (list pyval) :=
  [ [ PyStr "5906123"; PyStr "Arabian Sea"; PyStr "extra" ];
    [ PyStr "2902745" ] ].

(** ** The HTTP exchange behind a request *)

Module Http.

(** What [requests.get] meets: no response at all (connection error,
    timeout), or a response with its status code and its body, decoded
    where the body is JSON. *)
Inductive exchange : Type :=
  | NoResponse
  | Response (status_code : Z) (body : option pyval).

(** [Response.raise_for_status] of requests: [HTTPError] for the client
    and server error codes, 400 to 599, and nothing for any other code. *)
Definition raise_for_status (status_code : Z) : res unit :=
  if (400 <=? status_code) && (status_code <? 600)
  then Raise RequestException
  else Ok tt.

(** The exchange as [search] meets it: [requests.get], then
    [raise_for_status], then [response.json()]. *)
Definition reply_of (e : exchange) : backend_reply :=
  match e with
  | NoResponse => GetRaises
  | Response status_code body =>
      match raise_for_status status_code, body with
      | Raise _, _ => StatusRaises
      | Ok _, None => JsonRaises
      | Ok _, Some data => Payload data
      end
  end.

End Http.

Module Failure.

Definition non_2xx (status_code : Z) : Prop := ¬ (200 ≤ status_code ≤ 299).

(** The body cannot be read: it is not JSON, or the parsing code raises
    on it. *)
Definition unreadable (netloc : string → res string) (body : option pyval) : Prop :=
  match body with
  | None => True
  | Some data => raises (Search.payload_results netloc data)
  end.

(** The failures as the specification lists them: network error, a status
    outside 200..299, malformed payload. *)
Definition as_specified (netloc : string → res string) (e : Http.exchange) : Prop :=
  match e with
  | Http.NoResponse => True
  | Http.Response status_code body => non_2xx status_code ∨ unreadable netloc body
  end.

(** The failures of the [try] block: something in it raises. *)
Definition raised (netloc : string → res string) (e : Http.exchange) : Prop :=
  match e with
  | Http.NoResponse => True
  | Http.Response status_code body =>
      400 ≤ status_code < 600 ∨ unreadable netloc body
  end.

(** The specification's sentence: every failure it lists gives no
    results. *)
Definition empty_as_specified (netloc : string → res string) : Prop :=
  ∀ (e : Http.exchange) (api_key query : string) (site_filter : option (list string))
    (time_range : string) (top_k : Z) (w : Net),
    as_specified netloc e →
    (search netloc (fun _ => Http.reply_of e) api_key query site_filter time_range top_k w).1
    = [].

End Failure.

(** A response with status 300 (Multiple Choices, which requests does not
    follow) whose body is a payload with one hit; and the same body under
    an error status. *)
Definition ex_payload_one_hit : pyval :=
  PyDict [ ("items", PyList [ ex_hit "https://argo.ucsd.edu/about" "About Argo" ]) ].

Definition ex_multiple_choices : Http.exchange :=
  Http.Response 300 (Some ex_payload_one_hit).

Definition ex_unavailable : Http.exchange :=
  Http.Response 503 (Some ex_payload_one_hit).

Definition ex_dated_2023 : SearchResult := ex_result 3 "argo.ucsd.edu" (PyStr "2023-11-20").

(** * Properties *)

(** ** The error monad *)

Ltac res_simpl :=
  repeat (unfold mbind, res_bind, mret, res_ret, fmap, res_fmap in *; simpl in * ).

Lemma bind_inv {A B : Type} (f : A → res B) (m : res A) (b : B) :
  m ≫= f = Ok b → ∃ a, m = Ok a ∧ f a = Ok b.
Proof. destruct m as [a|e]; [by exists a | done]. Qed.

(** ** The stable sort *)

Module SortFacts.
Import Sort KeyOrder.

Lemma ltb_lt (a b : key) : ltb a b = true ↔ lt a b.
Proof.
  destruct a as [[a1 a2] a3], b as [[b1 b2] b3]; unfold ltb, lt; simpl.
  rewrite !orb_true_iff, !andb_true_iff, !orb_true_iff, !andb_true_iff.
  rewrite !Z.ltb_lt, !Z.eqb_eq. tauto.
Qed.

Lemma leb_le (a b : key) : leb a b = true ↔ le a b.
Proof.
  unfold leb. rewrite negb_true_iff, <- not_true_iff_false, ltb_lt.
  destruct a as [[a1 a2] a3], b as [[b1 b2] b3]; unfold lt, le; simpl. lia.
Qed.

Lemma lt_le (a b : key) : lt a b → le a b.
Proof. unfold lt, le. lia. Qed.

Lemma not_lt_le (a b : key) : ¬ lt b a → le a b.
Proof. unfold lt, le. lia. Qed.

Lemma le_trans (a b c : key) : le a b → le b c → le a c.
Proof. unfold le. lia. Qed.

Lemma le_antisym (a b : key) : le a b → le b a → a = b.
Proof.
  destruct a as [[a1 a2] a3], b as [[b1 b2] b3]; unfold le; simpl.
  intros H1 H2. repeat f_equal; lia.
Qed.

Section Facts.
Context {A : Type} (f : A → key).

Lemma insert_perm (x : A) (l : list A) : insert f x l ≡ₚ x :: l.
Proof.
  induction l as [|y l IH]; simpl; [done|].
  destruct (ltb (f y) (f x)); [|done].
  rewrite IH. apply Permutation_swap.
Qed.

Lemma sorted_perm (l : list A) : sorted f l ≡ₚ l.
Proof.
  induction l as [|x l IH]; simpl; [done|].
  rewrite insert_perm. by rewrite IH.
Qed.

Lemma insert_sorted (x : A) (l : list A) :
  StronglySorted (key_le f) l → StronglySorted (key_le f) (insert f x l).
Proof.
  induction 1 as [|y l Hl IH Hy]; simpl.
  - repeat constructor.
  - destruct (ltb (f y) (f x)) eqn:Hyx.
    + constructor; [exact IH|].
      rewrite insert_perm. constructor; [|exact Hy].
      apply lt_le. by apply ltb_lt.
    + assert (Hxy : key_le f x y).
      { apply not_lt_le. rewrite <- ltb_lt. congruence. }
      constructor; [by constructor|].
      constructor; [exact Hxy|].
      eapply Forall_impl; [exact Hy|].
      intros z Hz. eapply le_trans; [exact Hxy | exact Hz].
Qed.

Lemma sorted_sorted (l : list A) : StronglySorted (key_le f) (sorted f l).
Proof.
  induction l as [|x l IH]; simpl; [constructor|].
  by apply insert_sorted.
Qed.

Lemma insert_nil (x : A) : insert f x [] = [x].
Proof. reflexivity. Qed.

(** Where the first components of the keys differ, they decide. *)
Lemma insert_before (x y : A) (l : list A) :
  (f x).1.1 < (f y).1.1 → insert f x (y :: l) = x :: y :: l.
Proof.
  intros H. simpl. destruct (ltb (f y) (f x)) eqn:E; [|done].
  apply ltb_lt in E. unfold lt in E. lia.
Qed.

Lemma insert_after (x y : A) (l : list A) :
  (f y).1.1 < (f x).1.1 → insert f x (y :: l) = y :: insert f x l.
Proof.
  intros H. simpl. destruct (ltb (f y) (f x)) eqn:E; [done|].
  apply not_true_iff_false in E. rewrite ltb_lt in E. unfold lt in E. lia.
Qed.

(** Stability: results with equal keys keep their relative order. *)
Lemma insert_filter (P : A → bool) (x : A) (l : list A) :
  StronglySorted (key_le f) l →
  (∀ y, y ∈ l → P y = true → P x = true → f y = f x) →
  List.filter P (insert f x l) = List.filter P (x :: l).
Proof.
  induction 1 as [|y l Hl IH Hy]; intros Heq; simpl; [done|].
  destruct (ltb (f y) (f x)) eqn:Hyx; [|done].
  simpl. rewrite IH by (intros z Hz; apply Heq; by right).
  simpl. destruct (P y) eqn:HPy, (P x) eqn:HPx; try done.
  exfalso. apply ltb_lt in Hyx.
  rewrite (Heq y) in Hyx by (done || by left).
  unfold lt in Hyx. lia.
Qed.

Lemma sorted_stable (k : key) (l : list A) :
  List.filter (fun x => bool_decide (f x = k)) (sorted f l)
  = List.filter (fun x => bool_decide (f x = k)) l.
Proof.
  induction l as [|x l IH]; simpl; [done|].
  rewrite insert_filter.
  - simpl. by rewrite IH.
  - apply sorted_sorted.
  - intros y _ Hy Hx.
    apply bool_decide_eq_true in Hy, Hx. congruence.
Qed.

End Facts.

End SortFacts.

(** ** Ranking *)

Module RankFacts.
Import KeyOrder SortFacts.

Lemma index_lookup (d : string) (l : list string) (i : nat) :
  Py.index d l = Some i → l !! i = Some d ∧ ∀ j, (j < i)%nat → l !! j ≠ Some d.
Proof.
  revert i. induction l as [|y l IH]; intros i; simpl; [done|].
  destruct (String.eqb y d) eqn:E.
  - apply String.eqb_eq in E. intros [= <-]. split; [by subst|]. lia.
  - destruct (Py.index d l) as [i'|] eqn:Hi; simpl; [|done].
    intros [= <-]. destruct (IH i' eq_refl) as [H1 H2].
    split; [done|]. intros [|j] Hj; simpl.
    + apply String.eqb_neq in E. congruence.
    + apply H2. lia.
Qed.

Lemma index_none (d : string) (l : list string) :
  Py.index d l = None ↔ d ∉ l.
Proof.
  induction l as [|y l IH]; simpl.
  - split; [intros _; apply not_elem_of_nil | done].
  - rewrite not_elem_of_cons. destruct (String.eqb y d) eqn:E.
    + apply String.eqb_eq in E. split; [done | intros [? _]; congruence].
    + apply String.eqb_neq in E.
      destruct (Py.index d l); simpl.
      * split; [done | intros [_ H]; by apply IH in H].
      * split; [intros _; split; [congruence | by apply IH] | done].
Qed.

(** The index of a listed domain is its 0-based position. *)
Lemma priority_idx_listed (d : string) (i : nat) :
  priority_domains !! i = Some d → priority_idx d = Z.of_nat i.
Proof.
  intros Hi.
  do 10 (destruct i as [|i]; [injection Hi as <-; reflexivity|]).
  done.
Qed.

(** An unlisted domain gets the length of the list. *)
Lemma priority_idx_unlisted (d : string) :
  d ∉ priority_domains → priority_idx d = Z.of_nat (length priority_domains).
Proof.
  intros H. apply index_none in H. unfold priority_idx. by rewrite H.
Qed.

Lemma priority_idx_bounds (d : string) :
  0 ≤ priority_idx d ≤ Z.of_nat (length priority_domains).
Proof.
  unfold priority_idx. destruct (Py.index d priority_domains) as [i|] eqn:Hi; [|lia].
  apply index_lookup in Hi as [Hi _]. apply lookup_lt_Some in Hi. lia.
Qed.

(** Three results from incois.gov.in, argo.ucsd.edu and an unlisted
    domain: the sort gives this order from whichever order they come in. *)
Lemma three_domains (r1 r2 r3 : SearchResult) (l : list SearchResult) :
  source r1 = "incois.gov.in" →
  source r2 = "argo.ucsd.edu" →
  source r3 ∉ priority_domains →
  l ≡ₚ [r1; r2; r3] →
  _sort_by_priority l = [r1; r2; r3].
Proof.
  intros H1 H2 H3 Hl.
  assert (K1 : priority_idx (source r1) = 0) by (by rewrite H1).
  assert (K2 : priority_idx (source r2) = 1) by (by rewrite H2).
  assert (K3 : priority_idx (source r3) = 10) by (by rewrite priority_idx_unlisted).
  symmetry in Hl. apply permutations_Permutation in Hl.
  cbn in Hl. set_unfold in Hl.
  unfold _sort_by_priority, Sort.sorted, priority_score.
  destruct Hl as [->|[->|[->|[->|[->|[->|[]]]]]]]; cbn [foldr];
    repeat first [ rewrite insert_nil
                 | rewrite insert_before by (simpl; lia)
                 | rewrite insert_after by (simpl; lia) ];
    reflexivity.
Qed.

End RankFacts.

(** C1.  [_sort_by_priority] keeps the results it is given and returns them
    in ascending order of the lexicographic key (domain priority index,
    recency bucket, backend rank).  The domain priority index is the 0-based
    position of the source domain in the priority list, and the length of
    the list for a domain that is not in it.  Results from incois.gov.in,
    argo.ucsd.edu and an unlisted domain come out in that order, whatever
    their dates and whatever order they came in. *)
Theorem sort_by_priority_ascending (results : list SearchResult) :
  _sort_by_priority results ≡ₚ results
  ∧ StronglySorted Rank.score_le (_sort_by_priority results)
  ∧ (∀ r, priority_score r = (priority_idx (source r), recency_score r, rank r))
  ∧ (∀ d i, priority_domains !! i = Some d → priority_idx d = Z.of_nat i)
  ∧ (∀ d, d ∉ priority_domains → priority_idx d = Z.of_nat (length priority_domains))
  ∧ (∀ r1 r2 r3,
       source r1 = "incois.gov.in" →
       source r2 = "argo.ucsd.edu" →
       source r3 ∉ priority_domains →
       results ≡ₚ [r1; r2; r3] →
       _sort_by_priority results = [r1; r2; r3]).
Proof.
  split; [apply SortFacts.sorted_perm|].
  split; [apply (SortFacts.sorted_sorted priority_score)|].
  split; [reflexivity|].
  split; [apply RankFacts.priority_idx_listed|].
  split; [apply RankFacts.priority_idx_unlisted|].
  intros r1 r2 r3 H1 H2 H3 Hl. by apply RankFacts.three_domains.
Qed.

Lemma sort_by_priority_ascending_witness :
  _sort_by_priority [ex_unknown; ex_argo; ex_incois] = [ex_incois; ex_argo; ex_unknown].
Proof.
  apply (sort_by_priority_ascending [ex_unknown; ex_argo; ex_incois]).
  - reflexivity.
  - reflexivity.
  - apply RankFacts.index_none. reflexivity.
  - apply Permutation_rev.
Defined.

(** ** Recency *)

Module RecencyFacts.
Import KeyOrder SortFacts Recency.

Lemma score_cases (r : SearchResult) :
  recency_score r = -1 ∨ recency_score r = 0 ∨ recency_score r = 1.
Proof.
  unfold recency_score.
  destruct (Py.truthy _); [|lia].
  destruct (Py.contains "2024" _) as [[]|]; simpl; [lia| |lia].
  destruct (Py.contains "2025" _) as [[]|]; simpl; [lia| |lia].
  destruct (Py.contains "2023" _) as [[]|]; simpl; lia.
Qed.

Lemma contains_truthy (k : string) (v : pyval) :
  k ≠ "" → Py.contains k v = Ok true → Py.truthy v = true.
Proof.
  intros Hk. destruct v as [| | |s|l|kvs]; simpl; try done.
  - destruct s; [|done]. by destruct k.
  - by destruct l.
  - by destruct kvs.
Qed.

(** The best bucket is reached exactly through the two literals. *)
Lemma score_best (r : SearchResult) :
  recency_score r = -1
  ↔ Py.contains "2024" (date_of r) = Ok true ∨ Py.contains "2025" (date_of r) = Ok true.
Proof.
  unfold recency_score. fold (date_of r). split.
  - destruct (Py.truthy _); [|intros; lia].
    destruct (Py.contains "2024" _) as [[]|]; simpl; [by left| |intros; lia].
    destruct (Py.contains "2025" _) as [[]|]; simpl; [by right| |intros; lia].
    destruct (Py.contains "2023" _) as [[]|]; simpl; intros; lia.
  - intros [H|H].
    + rewrite (contains_truthy "2024" _) by done. by rewrite H.
    + rewrite (contains_truthy "2025" _) by done.
      destruct (Py.contains "2024" _) as [[]|] eqn:E; simpl; [done| |].
      { by rewrite H. }
      destruct (date_of r); simpl in *; congruence.
Qed.

(** On a date string the bucket follows the three literals. *)
Lemma score_str (r : SearchResult) (s : string) :
  date_of r = PyStr s → s ≠ "" →
  recency_score r =
    if Str.contains "2024" s || Str.contains "2025" s then -1
    else if Str.contains "2023" s then 0 else 1.
Proof.
  intros Hd Hs. unfold recency_score. fold (date_of r). rewrite Hd. simpl.
  apply String.eqb_neq in Hs. rewrite Hs. simpl.
  destruct (Str.contains "2024" s); simpl; [done|].
  destruct (Str.contains "2025" s); simpl; [done|].
  by destruct (Str.contains "2023" s).
Qed.

Lemma score_undated (r : SearchResult) : undated r → recency_score r = 0.
Proof. unfold undated, recency_score, date_of. by intros ->. Qed.

(** Two results of which the first has the smaller key. *)
Lemma sort_pair (a b : SearchResult) (l : list SearchResult) :
  lt (priority_score a) (priority_score b) →
  l ≡ₚ [a; b] → _sort_by_priority l = [a; b].
Proof.
  intros Hab Hl.
  assert (E1 : Sort.ltb (priority_score a) (priority_score b) = true) by by apply ltb_lt.
  assert (E2 : Sort.ltb (priority_score b) (priority_score a) = false).
  { apply not_true_iff_false. rewrite ltb_lt. unfold lt in *. lia. }
  symmetry in Hl. apply permutations_Permutation in Hl.
  cbn in Hl. set_unfold in Hl.
  destruct Hl as [->|[->|[]]];
    unfold _sort_by_priority, Sort.sorted; cbn [foldr Sort.insert].
  - by rewrite E2.
  - by rewrite E1.
Qed.

(** A result in the best bucket comes before an undated one of the same
    priority index. *)
Lemma best_before_undated (a b : SearchResult) (l : list SearchResult) :
  priority_idx (source a) = priority_idx (source b) →
  recency_score a = -1 → undated b →
  l ≡ₚ [a; b] → _sort_by_priority l = [a; b].
Proof.
  intros Hidx Ha Hb. apply sort_pair.
  unfold lt, priority_score. simpl. rewrite (score_undated b Hb). lia.
Qed.

End RecencyFacts.

(** C2.  The recency test compares the date with the literals "2024",
    "2025" and "2023" and never with the calendar year, although its
    comments say "prefer recent if date available" and "More recent =
    lower score (better)".  With 2026 as the calendar year the tie-break
    of the specification fails: a result dated 2026-03-01 gets bucket +1,
    the worst one, and is sorted after an undated result and after a
    result dated 2023 of the same domain. *)
Theorem recency_current_year_defect :
  ¬ Recency.current_year_first 2026
  ∧ recency_score ex_dated_2026 = 1
  ∧ recency_score ex_undated = 0
  ∧ recency_score ex_dated_2023 = 0
  ∧ _sort_by_priority [ex_dated_2026; ex_undated] = [ex_undated; ex_dated_2026]
  ∧ _sort_by_priority [ex_dated_2026; ex_dated_2023] = [ex_dated_2023; ex_dated_2026].
Proof.
  split; [|by vm_compute].
  intros H.
  specialize (H ex_dated_2026 ex_undated "2026-03-01"
                eq_refl eq_refl eq_refl eq_refl eq_refl).
  vm_compute in H. discriminate H.
Qed.

(** The test is a substring test: the epoch seconds of a day in May 2021
    reach the best bucket because they contain the digits 2024. *)
Example recency_epoch_example : recency_score ex_epoch_2021 = -1.
Proof. reflexivity. Qed.

(** The recency bucket as [priority_score] computes it, read off
    [published or updated]: -1 exactly when that value contains "2024" or
    "2025"; on a non-empty date string otherwise 0 when the string
    contains "2023" and +1 when it does not; 0 for a result without dates;
    always one of -1, 0, +1.  A result in the best bucket is sorted before
    an undated result with the same domain priority index. *)
Lemma recency_bucket_literal_years (a b : SearchResult) (l : list SearchResult) :
  (recency_score a = -1
   ↔ Py.contains "2024" (Recency.date_of a) = Ok true
     ∨ Py.contains "2025" (Recency.date_of a) = Ok true)
  ∧ (∀ s, Recency.date_of a = PyStr s → s ≠ "" →
       recency_score a =
         if Str.contains "2024" s || Str.contains "2025" s then -1
         else if Str.contains "2023" s then 0 else 1)
  ∧ (Recency.undated a → recency_score a = 0)
  ∧ (recency_score a = -1 ∨ recency_score a = 0 ∨ recency_score a = 1)
  ∧ (priority_idx (source a) = priority_idx (source b) →
     recency_score a = -1 → Recency.undated b →
     l ≡ₚ [a; b] → _sort_by_priority l = [a; b]).
Proof.
  split; [apply RecencyFacts.score_best|].
  split; [apply RecencyFacts.score_str|].
  split; [apply RecencyFacts.score_undated|].
  split; [apply RecencyFacts.score_cases|].
  apply RecencyFacts.best_before_undated.
Qed.

Lemma recency_bucket_literal_years_witness :
  _sort_by_priority [ex_undated; ex_dated_2025] = [ex_dated_2025; ex_undated].
Proof.
  apply (recency_bucket_literal_years ex_dated_2025 ex_undated [ex_undated; ex_dated_2025]).
  - reflexivity.
  - reflexivity.
  - reflexivity.
  - apply Permutation_swap.
Defined.

(** ** Source domains and the priority list *)

Example netloc_examples :
  Url.netloc "https://WWW.Argo.UCSD.edu:443/floats?x=1#top" = Ok "WWW.Argo.UCSD.edu:443"
  ∧ Url.netloc "mailto:someone@example.org" = Ok ""
  ∧ Url.netloc "//doi.org/10.17882/42182" = Ok "doi.org"
  ∧ Url.netloc "http://[::1/x" = Raise ValueError.
Proof. by vm_compute. Qed.

Example extract_domain_examples :
  _extract_domain Url.netloc (PyStr "https://www.INCOIS.gov.in/argo") = "incois.gov.in"
  ∧ _extract_domain Url.netloc (PyStr "https://m.facebook.com/argo") = "m.facebook.com"
  ∧ _extract_domain Url.netloc (PyStr "not a url") = ""
  ∧ _extract_domain Url.netloc (PyStr "http://[::1/x") = ""
  ∧ _extract_domain Url.netloc PyNone = "".
Proof. by vm_compute. Qed.

Example is_disallowed_examples :
  _is_disallowed_domain "m.facebook.com" = true
  ∧ _is_disallowed_domain "my-contentfarm.example" = true
  ∧ _is_disallowed_domain "argo.ucsd.edu" = false
  ∧ _is_disallowed_domain "" = false.
Proof. by vm_compute. Qed.

Module DomainFacts.
Import Domain.

Lemma startswith_app (s p : string) :
  Str.startswith s p = true → s = p ++ Str.drop (String.length p) s.
Proof.
  revert s. induction p as [|a p IH]; intros [|b s]; simpl; try done.
  destruct (Ascii.eqb a b) eqn:E; [|done].
  apply Ascii.eqb_eq in E as ->. intros H.
  change (String b s = String b (p ++ Str.drop (String.length p) s)).
  f_equal. by apply IH.
Qed.

(** With a netloc in hand, the domain is its lower-cased text without one
    leading ["www."]. *)
Lemma extract_domain_netloc (netloc : string → res string) (u n : string) :
  netloc u = Ok n →
  _extract_domain netloc (PyStr u) =
    if Str.startswith (Str.lower n) "www." then Str.drop 4 (Str.lower n)
    else Str.lower n.
Proof.
  intros H. unfold _extract_domain. simpl. rewrite H. simpl.
  by destruct (Str.startswith (Str.lower n) "www.").
Qed.

Lemma extract_domain_raise (netloc : string → res string) (u : string) (e : exn) :
  netloc u = Raise e → _extract_domain netloc (PyStr u) = "".
Proof. intros H. unfold _extract_domain. simpl. by rewrite H. Qed.

Lemma idx_lt_listed (d : string) :
  priority_idx d < Z.of_nat (length priority_domains) → d ∈ priority_domains.
Proof.
  unfold priority_idx.
  destruct (Py.index d priority_domains) as [i|] eqn:Hi; [|lia].
  intros _. apply RankFacts.index_lookup in Hi as [Hi _].
  by apply list_elem_of_lookup_2 in Hi.
Qed.

Lemma listed_split (d : string) :
  d ∈ priority_domains → d ∈ bare_entries ∨ d ∈ www_entries.
Proof.
  intros H. change priority_domains with (bare_entries ++ www_entries)%list in H.
  by apply elem_of_app in H.
Qed.

Lemma www_entry_prefix (d : string) :
  d ∈ www_entries → Str.startswith d "www." = true.
Proof.
  intros H. apply list_elem_of_In, filter_In in H. tauto.
Qed.

(** A host that is one of the www-entries loses its prefix and is then
    not found in the list. *)
Lemma www_host_unlisted (netloc : string → res string) (u n e : string) :
  netloc u = Ok n → e ∈ www_entries → Str.lower n = e →
  priority_idx (_extract_domain netloc (PyStr u)) = Z.of_nat (length priority_domains).
Proof.
  intros Hn He Hl. rewrite (extract_domain_netloc _ _ _ Hn), Hl.
  cbv [www_entries priority_domains List.filter] in He. cbn in He.
  set_unfold in He.
  destruct He as [->|[->|[->|[->|[->|[->|[->|[]]]]]]]]; reflexivity.
Qed.

(** What can rank below the length of the list. *)
Lemma ranked_domains (netloc : string → res string) (u : string) :
  priority_idx (_extract_domain netloc (PyStr u)) < Z.of_nat (length priority_domains) →
  _extract_domain netloc (PyStr u) ∈ bare_entries
  ∨ ∃ n e, netloc u = Ok n ∧ e ∈ www_entries ∧ Str.lower n = "www." ++ e
           ∧ _extract_domain netloc (PyStr u) = e.
Proof.
  intros H. apply idx_lt_listed, listed_split in H as [H|H]; [by left|right].
  pose proof (www_entry_prefix _ H) as Hp.
  destruct (netloc u) as [n|x] eqn:Hn.
  - exists n, (_extract_domain netloc (PyStr u)).
    split; [done|]. split; [done|]. split; [|done].
    rewrite (extract_domain_netloc _ _ _ Hn) in Hp |- *.
    destruct (Str.startswith (Str.lower n) "www.") eqn:E.
    + by apply startswith_app in E.
    + congruence.
  - rewrite (extract_domain_raise _ _ _ Hn) in Hp. done.
Qed.

End DomainFacts.

(** C3, as worded, fails: the prefix is stripped once, so the host
    www.www.ocean-ops.org yields the source domain www.ocean-ops.org, which
    is the fourth entry of the priority list. *)
Lemma www_www_host_counterexample :
  _extract_domain Url.netloc (PyStr "https://www.www.ocean-ops.org/data") = "www.ocean-ops.org"
  ∧ priority_idx "www.ocean-ops.org" = 3
  ∧ ¬ Domain.only_bare_entries_rank Url.netloc.
Proof.
  split; [reflexivity|]. split; [reflexivity|].
  intros H. specialize (H "https://www.www.ocean-ops.org/data" eq_refl).
  vm_compute in H. set_unfold in H.
  destruct H as [H|[H|[H|[]]]]; discriminate H.
Qed.

(** C3, amended.  The source domain is the lower-cased netloc of the URL
    without one leading ["www."].  Seven of the ten entries of the priority
    list begin with ["www."]; a result whose host is one of these seven gets
    the unknown-domain index, the length of the list.  A priority index
    below the length of the list is reached only by the source domains
    incois.gov.in, argo.ucsd.edu and doi.org, and by a host that is
    ["www."] followed by one of the seven entries. *)
Theorem www_entries_shadowed (netloc : string → res string) (u : string) :
  (length priority_domains = 10%nat
   ∧ Domain.www_entries =
       [ "www.ocean-ops.org"; "www.usgodae.org"; "www.seanoe.org"; "www.ncei.noaa.gov";
         "www.jcommops.org"; "www.euro-argo.eu"; "www.ifremer.fr" ])
  ∧ (∀ n, netloc u = Ok n →
       _extract_domain netloc (PyStr u) =
         if Str.startswith (Str.lower n) "www." then Str.drop 4 (Str.lower n)
         else Str.lower n)
  ∧ (∀ n e, netloc u = Ok n → e ∈ Domain.www_entries → Str.lower n = e →
       priority_idx (_extract_domain netloc (PyStr u)) = Z.of_nat (length priority_domains))
  ∧ (priority_idx (_extract_domain netloc (PyStr u)) < Z.of_nat (length priority_domains) →
     _extract_domain netloc (PyStr u) ∈ Domain.bare_entries
     ∨ ∃ n e, netloc u = Ok n ∧ e ∈ Domain.www_entries ∧ Str.lower n = "www." ++ e
              ∧ _extract_domain netloc (PyStr u) = e).
Proof.
  split; [by split|].
  split; [intros n; apply DomainFacts.extract_domain_netloc|].
  split; [intros n e; apply DomainFacts.www_host_unlisted|].
  apply DomainFacts.ranked_domains.
Qed.

Lemma www_entries_shadowed_witness :
  priority_idx (_extract_domain Url.netloc (PyStr "https://WWW.Ocean-Ops.org/floats?x=1")) = 10.
Proof.
  apply (www_entries_shadowed Url.netloc "https://WWW.Ocean-Ops.org/floats?x=1")
    with (n := "WWW.Ocean-Ops.org") (e := "www.ocean-ops.org").
  - reflexivity.
  - by vm_compute; set_solver.
  - reflexivity.
Defined.

(** ** The search executor *)

Example extract_date_examples :
  _extract_date (PyDict [ ("metatags", PyList [ PyDict [ ("og:title", PyStr "Argo");
                                                       ("date", PyStr "2024-05-01") ] ]) ])
    = Ok (PyStr "2024-05-01")
  ∧ _extract_date (PyDict [ ("metatags", PyList [ PyDict [ ("og:title", PyStr "Argo") ] ]);
                           ("article", PyList [ PyDict [ ("modified_time", PyStr "2023") ] ]) ])
    = Ok (PyStr "2023")
  ∧ _extract_date (PyDict [ ("cse_image", PyList []) ]) = Ok PyNone
  ∧ _extract_date (PyDict [ ("metatags", PyList [ PyNum true ]) ]) = Raise TypeError
  ∧ _extract_date PyNone = Raise TypeError.
Proof. by vm_compute. Qed.

Example slice_examples :
  Py.slice_to [1; 2; 3] 2 = [1; 2]
  ∧ Py.slice_to [1; 2; 3] 5 = [1; 2; 3]
  ∧ Py.slice_to [1; 2; 3] 0 = []
  ∧ Py.slice_to [1; 2; 3] (-1) = [1; 2].
Proof. by vm_compute. Qed.

Module SearchFacts.
Import Search.

Section Facts.
Variable netloc : string → res string.
Variable backend : SearchParams → backend_reply.
Variable api_key : string.

Lemma search_try_reply query site_filter time_range top_k w :
  search_try netloc backend api_key query site_filter time_range top_k w =
    (match backend (build_params api_key query site_filter time_range top_k) with
     | Payload data =>
         results ← payload_results netloc data;
         mret (Py.slice_to (_sort_by_priority results) top_k)
     | _ => Raise RequestException
     end,
     mkNet (sent w ++ [build_params api_key query site_filter time_range top_k])).
Proof.
  unfold search_try, requests_get, payload_results. f_equal.
  destruct (backend _) as [| | |data]; try reflexivity.
  res_simpl.
  destruct (Py.get data "items" (PyList [])) as [items|]; [|done].
  destruct (Py.iter items) as [l|]; [|done].
  by destruct (parse_items netloc 0 l).
Qed.

(** On a failed call [search] answers with no results. *)
Lemma search_failed query site_filter time_range top_k w :
  backend_failed netloc (backend (build_params api_key query site_filter time_range top_k)) →
  (search netloc backend api_key query site_filter time_range top_k w).1 = [].
Proof.
  unfold search. rewrite search_try_reply.
  destruct (backend _) as [| | |data]; simpl; try done.
  intros [e He]. rewrite He. res_simpl. by destruct e.
Qed.

(** On a payload that parses, it answers with the ranked results cut
    at [top_k]. *)
Lemma search_parsed query site_filter time_range top_k w data results :
  backend (build_params api_key query site_filter time_range top_k) = Payload data →
  payload_results netloc data = Ok results →
  (search netloc backend api_key query site_filter time_range top_k w).1
  = Py.slice_to (_sort_by_priority results) top_k.
Proof.
  intros Hb Hp. unfold search. rewrite search_try_reply, Hb, Hp. done.
Qed.

(** Either way, exactly one request is sent. *)
Lemma search_sent query site_filter time_range top_k w :
  sent (search netloc backend api_key query site_filter time_range top_k w).2
  = (sent w ++ [build_params api_key query site_filter time_range top_k])%list.
Proof.
  unfold search. rewrite search_try_reply.
  destruct (backend _) as [| | |data]; simpl; try done.
  destruct (payload_results netloc data) as [results|e]; res_simpl; [done|by destruct e].
Qed.

(** The shapes of the answer. *)
Lemma search_cases query site_filter time_range top_k w :
  (search netloc backend api_key query site_filter time_range top_k w).1 = []
  ∨ ∃ data results,
      backend (build_params api_key query site_filter time_range top_k) = Payload data
      ∧ payload_results netloc data = Ok results
      ∧ (search netloc backend api_key query site_filter time_range top_k w).1
        = Py.slice_to (_sort_by_priority results) top_k.
Proof.
  destruct (backend (build_params api_key query site_filter time_range top_k))
    as [| | |data] eqn:Hb.
  1-3: left; apply search_failed; by rewrite Hb.
  destruct (payload_results netloc data) as [results|e] eqn:Hp.
  - right. exists data, results. split; [done|]. split; [done|].
    by apply search_parsed with data.
  - left. apply search_failed. rewrite Hb. by exists e.
Qed.

End Facts.

End SearchFacts.

Module ParseFacts.
Import Parse.

Section Facts.
Variable netloc : string → res string.

(** What a parsed item says about the hit it came from. *)
Lemma parse_item_some (idx : Z) (item : pyval) (r : SearchResult) :
  parse_item netloc idx item = Ok (Some r) →
  rank r = idx + 1
  ∧ Py.get item "link" (PyStr "") = Ok (PyStr (url r))
  ∧ source r = _extract_domain netloc (PyStr (url r))
  ∧ _is_disallowed_domain (source r) = false.
Proof.
  unfold parse_item. intros H.
  apply bind_inv in H as (link & Hlink & H).
  destruct (_is_disallowed_domain (_extract_domain netloc link)) eqn:Hd; [done|].
  apply bind_inv in H as (ti & _ & H).
  apply bind_inv in H as (sn & _ & H).
  apply bind_inv in H as (r0 & Hnew & H).
  apply bind_inv in H as (has & _ & H).
  apply bind_inv in H as (r1 & Hr1 & H).
  injection H as <-.
  unfold SearchResult_new in Hnew.
  apply bind_inv in Hnew as (ti' & _ & Hnew).
  apply bind_inv in Hnew as (u & Hu & Hnew).
  apply bind_inv in Hnew as (sn' & _ & Hnew).
  injection Hnew as <-.
  destruct link; try done. injection Hu as ->.
  assert (Hsame : rank r1 = idx + 1 ∧ url r1 = u
                  ∧ source r1 = _extract_domain netloc (PyStr u)).
  { destruct has.
    - apply bind_inv in Hr1 as (meta & _ & Hr1).
      apply bind_inv in Hr1 as (date & _ & Hr1).
      by injection Hr1 as <-.
    - by injection Hr1 as <-. }
  destruct Hsame as (-> & -> & ->). by rewrite Hlink.
Qed.

(** A hit whose domain is disallowed is skipped, when the item is
    readable at all. *)
Lemma parse_item_disallowed (idx : Z) (item url : pyval) :
  Py.get item "link" (PyStr "") = Ok url →
  _is_disallowed_domain (_extract_domain netloc url) = true →
  parse_item netloc idx item = Ok None.
Proof.
  destruct item as [| | | | |kvs]; try done.
  intros [= <-] Hd. unfold parse_item. cbn [Py.get mbind res_bind]. by rewrite Hd.
Qed.

Lemma parse_item_not_dict (idx : Z) (item : pyval) :
  is_dict item = false → raises (parse_item netloc idx item).
Proof.
  destruct item; try done; intros _; by exists AttributeError.
Qed.

(** Every result of the loop comes from an item of the list, carries
    that item's position and link, and has an allowed domain. *)
Lemma parse_items_elem (items : list pyval) :
  ∀ (idx : Z) (results : list SearchResult) (r : SearchResult),
    parse_items netloc idx items = Ok results → r ∈ results →
    ∃ (i : nat) (item : pyval),
      items !! i = Some item
      ∧ rank r = idx + Z.of_nat i + 1
      ∧ Py.get item "link" (PyStr "") = Ok (PyStr (url r))
      ∧ source r = _extract_domain netloc (PyStr (url r))
      ∧ _is_disallowed_domain (source r) = false.
Proof.
  induction items as [|item items IH]; intros idx results r; simpl.
  - intros [= <-] Hr. by apply elem_of_nil in Hr.
  - res_simpl.
    destruct (parse_item netloc idx item) as [parsed|] eqn:Hp; [|done].
    destruct (parse_items netloc (idx + 1) items) as [rest|] eqn:Hrest; [|done].
    intros [= <-] Hr.
    assert (Hrest' : r ∈ rest →
              ∃ (i : nat) (item0 : pyval),
                (item :: items) !! i = Some item0
                ∧ rank r = idx + Z.of_nat i + 1
                ∧ Py.get item0 "link" (PyStr "") = Ok (PyStr (url r))
                ∧ source r = _extract_domain netloc (PyStr (url r))
                ∧ _is_disallowed_domain (source r) = false).
    { intros Hin. destruct (IH _ _ _ Hrest Hin) as (i & it & Hi & Hrk & Hrem).
      exists (S i), it. split; [done|]. split; [lia|done]. }
    destruct parsed as [r0|]; [|by apply Hrest'].
    apply elem_of_cons in Hr as [->|Hr]; [|by apply Hrest'].
    apply parse_item_some in Hp as (Hrk & Hrem).
    exists 0%nat, item. split; [done|]. split; [lia|done].
Qed.

(** One unreadable item makes the whole loop raise. *)
Lemma parse_items_raises (items : list pyval) (item : pyval) :
  item ∈ items → (∀ idx, raises (parse_item netloc idx item)) →
  ∀ idx, raises (parse_items netloc idx items).
Proof.
  intros Hin Hbad. induction Hin as [item items|item other items Hin IH];
    intros idx; simpl; res_simpl.
  - destruct (Hbad idx) as [e He]. rewrite He. by exists e.
  - destruct (parse_item netloc idx other) as [parsed|e]; [|by exists e].
    destruct (IH Hbad (idx + 1)) as [e He]. rewrite He. by exists e.
Qed.

Lemma payload_not_dict (data : pyval) :
  is_dict data = false → raises (Search.payload_results netloc data).
Proof.
  destruct data; try done; intros _; by exists AttributeError.
Qed.

Lemma payload_items_not_iterable (kvs : list (string * pyval)) (v : pyval) :
  Py.assoc "items" kvs = Some v → is_iterable v = false →
  raises (Search.payload_results netloc (PyDict kvs)).
Proof.
  intros Hv Hit. unfold Search.payload_results. res_simpl. rewrite Hv.
  destruct v; try done; by exists TypeError.
Qed.

Lemma payload_item_not_dict (kvs : list (string * pyval)) (items : list pyval)
    (item : pyval) :
  Py.assoc "items" kvs = Some (PyList items) → item ∈ items → is_dict item = false →
  raises (Search.payload_results netloc (PyDict kvs)).
Proof.
  intros Hv Hin Hnd. unfold Search.payload_results. res_simpl. rewrite Hv. simpl.
  apply parse_items_raises with item; [done|].
  intros idx. by apply parse_item_not_dict.
Qed.

End Facts.

End ParseFacts.

Module CapFacts.

Lemma slice_subseteq {A : Type} (l : list A) (k : Z) : Py.slice_to l k ⊆ l.
Proof. unfold Py.slice_to. destruct (k <? 0); apply subseteq_take. Qed.

Lemma slice_length {A : Type} (l : list A) (k : Z) :
  0 ≤ k → Z.of_nat (length (Py.slice_to l k)) ≤ k.
Proof.
  intros Hk. unfold Py.slice_to.
  destruct (k <? 0) eqn:E; [apply Z.ltb_lt in E; lia|].
  rewrite length_take. lia.
Qed.

Lemma slice_sorted_elem (results : list SearchResult) (k : Z) (r : SearchResult) :
  r ∈ Py.slice_to (_sort_by_priority results) k → r ∈ results.
Proof.
  intros H. apply slice_subseteq in H.
  unfold _sort_by_priority in H. by rewrite SortFacts.sorted_perm in H.
Qed.

End CapFacts.

Module FailureFacts.

Lemma raise_for_status_spec (status_code : Z) :
  Http.raise_for_status status_code = Raise RequestException ∧ 400 ≤ status_code < 600
  ∨ Http.raise_for_status status_code = Ok tt ∧ ¬ (400 ≤ status_code < 600).
Proof.
  unfold Http.raise_for_status.
  destruct (400 <=? status_code) eqn:E1, (status_code <? 600) eqn:E2; simpl;
    [left | right ..]; split; try reflexivity; lia.
Qed.

(** The exchange is a failure for [search] exactly when something in the
    [try] block raises on it. *)
Lemma reply_failed (netloc : string → res string) (e : Http.exchange) :
  Search.backend_failed netloc (Http.reply_of e) ↔ Failure.raised netloc e.
Proof.
  destruct e as [|status_code body]; simpl; [done|].
  destruct (raise_for_status_spec status_code) as [[-> Hc]|[-> Hc]].
  - split; [by left | done].
  - destruct body as [data|]; simpl.
    + split; [by right | by intros [?|?]].
    + split; [by right | done].
Qed.

End FailureFacts.

(** C4, as the specification words it, fails on a status outside 200..299
    that is no error status: a response with status 300 and a payload of
    one hit is not a failure for [search], which returns the hit.  Under
    status 503 the same body gives no results. *)
Lemma non_2xx_status_counterexample :
  ¬ Failure.empty_as_specified Url.netloc
  ∧ Failure.non_2xx 300
  ∧ map (fun r => (rank r, source r))
      (search Url.netloc (fun _ => Http.reply_of ex_multiple_choices)
         "k" "argo floats" None "year" 5 (mkNet [])).1
    = [ (1, "argo.ucsd.edu") ]
  ∧ (search Url.netloc (fun _ => Http.reply_of ex_unavailable)
       "k" "argo floats" None "year" 5 (mkNet [])).1 = [].
Proof.
  split; [|split; [|split; reflexivity]].
  - intros H.
    specialize (H ex_multiple_choices "k" "argo floats" None "year" 5 (mkNet [])).
    assert (Hf : Failure.as_specified Url.netloc ex_multiple_choices)
      by (left; unfold Failure.non_2xx; lia).
    specialize (H Hf). vm_compute in H. discriminate H.
  - unfold Failure.non_2xx. lia.
Qed.

(** C4, amended.  When something in the [try] block raises - the request
    (network error), the status check (an error status, 400 to 599), the
    JSON decoding, or the parsing code on a malformed payload (not an
    object, ["items"] not iterable, an item that is not an object, or
    anything else that makes it raise) - [search] returns an empty result
    list; it returns normally, having sent its one request.  For an HTTP
    exchange this failure is exactly: no response, an error status, or a
    body that cannot be read. *)
Theorem search_failure_empty (netloc : string → res string)
    (backend : SearchParams → backend_reply) (api_key : string)
    (query : string) (site_filter : option (list string)) (time_range : string)
    (top_k : Z) (w : Net) :
  (∀ data, Parse.is_dict data = false → Search.backend_failed netloc (Payload data))
  ∧ (∀ kvs v, Py.assoc "items" kvs = Some v → Parse.is_iterable v = false →
       Search.backend_failed netloc (Payload (PyDict kvs)))
  ∧ (∀ kvs items item,
       Py.assoc "items" kvs = Some (PyList items) → item ∈ items →
       Parse.is_dict item = false →
       Search.backend_failed netloc (Payload (PyDict kvs)))
  ∧ (Search.backend_failed netloc
       (backend (build_params api_key query site_filter time_range top_k)) →
     search netloc backend api_key query site_filter time_range top_k w
     = ([], mkNet (sent w ++ [build_params api_key query site_filter time_range top_k])))
  ∧ (∀ e : Http.exchange,
       Search.backend_failed netloc (Http.reply_of e) ↔ Failure.raised netloc e).
Proof.
  split; [apply ParseFacts.payload_not_dict|].
  split; [apply ParseFacts.payload_items_not_iterable|].
  split; [apply ParseFacts.payload_item_not_dict|].
  split.
  - intros H.
    pose proof (SearchFacts.search_failed netloc backend api_key _ _ _ _ w H) as H1.
    pose proof (SearchFacts.search_sent netloc backend api_key query site_filter time_range top_k w) as H2.
    destruct (search netloc backend api_key query site_filter time_range top_k w) as [rs [s]].
    simpl in *. by subst.
  - apply FailureFacts.reply_failed.
Qed.

Lemma search_failure_empty_witness :
  search Url.netloc ex_backend_malformed "k" "argo floats" None "year" 5 (mkNet [])
  = ([], mkNet [build_params "k" "argo floats" None "year" 5]).
Proof.
  apply (search_failure_empty Url.netloc ex_backend_malformed "k" "argo floats" None "year" 5 (mkNet [])).
  apply (search_failure_empty Url.netloc ex_backend_malformed "k" "argo floats" None "year" 5 (mkNet [])).
  reflexivity.
Defined.

(** The four hits of [ex_backend]: the facebook.com hit is gone, the other
    three are ranked, and their ranks are their positions in the payload. *)
Example search_example :
  map (fun r => (rank r, source r))
    (search Url.netloc ex_backend "k" "argo floats" None "year" 5 (mkNet [])).1
  = [ (4, "incois.gov.in"); (3, "argo.ucsd.edu"); (1, "example.org") ].
Proof. reflexivity. Qed.

(** C5.  A raw hit whose derived source domain contains a deny-list pattern
    is skipped by the parsing loop, so it is absent from the list handed to
    the ranker, which is sorted and cut at [top_k] only afterwards; no
    result of [search] has a disallowed domain, and none carries the rank of
    such a hit. *)
Theorem disallowed_hits_dropped (netloc : string → res string)
    (backend : SearchParams → backend_reply) (api_key : string)
    (query : string) (site_filter : option (list string)) (time_range : string)
    (top_k : Z) (w : Net) :
  (∀ idx item link,
     Py.get item "link" (PyStr "") = Ok link →
     _is_disallowed_domain (_extract_domain netloc link) = true →
     parse_item netloc idx item = Ok None)
  ∧ (∀ data results,
       backend (build_params api_key query site_filter time_range top_k) = Payload data →
       Search.payload_results netloc data = Ok results →
       (∀ r, r ∈ results → _is_disallowed_domain (source r) = false)
       ∧ (search netloc backend api_key query site_filter time_range top_k w).1
         = Py.slice_to (_sort_by_priority results) top_k)
  ∧ (∀ r, r ∈ (search netloc backend api_key query site_filter time_range top_k w).1 →
       source r = _extract_domain netloc (PyStr (url r))
       ∧ _is_disallowed_domain (source r) = false)
  ∧ (∀ kvs items i item link,
       backend (build_params api_key query site_filter time_range top_k) = Payload (PyDict kvs) →
       Py.assoc "items" kvs = Some (PyList items) →
       items !! i = Some item →
       Py.get item "link" (PyStr "") = Ok link →
       _is_disallowed_domain (_extract_domain netloc link) = true →
       ∀ r, r ∈ (search netloc backend api_key query site_filter time_range top_k w).1 →
            rank r ≠ Z.of_nat i + 1).
Proof.
  assert (Hres : ∀ data results r,
            Search.payload_results netloc data = Ok results → r ∈ results →
            ∃ (i : nat) (item : pyval) (items : list pyval),
              (Py.get data "items" (PyList []) ≫= Py.iter) = Ok items
              ∧ items !! i = Some item
              ∧ rank r = Z.of_nat i + 1
              ∧ Py.get item "link" (PyStr "") = Ok (PyStr (url r))
              ∧ source r = _extract_domain netloc (PyStr (url r))
              ∧ _is_disallowed_domain (source r) = false).
  { intros data results r Hp Hr. unfold Search.payload_results in Hp.
    apply bind_inv in Hp as (v & Hv & Hp).
    apply bind_inv in Hp as (items & Hit & Hp).
    destruct (ParseFacts.parse_items_elem netloc items 0 results r Hp Hr)
      as (i & item & Hi & Hrk & Hrest).
    exists i, item, items. rewrite Hv. simpl. split; [done|]. split; [done|].
    split; [lia|done]. }
  split; [apply ParseFacts.parse_item_disallowed|].
  split.
  { intros data results Hb Hp. split.
    - intros r Hr. destruct (Hres _ _ _ Hp Hr) as (i & item & items & H). tauto.
    - by apply SearchFacts.search_parsed with data. }
  split.
  { intros r Hr.
    destruct (SearchFacts.search_cases netloc backend api_key query site_filter time_range top_k w)
      as [E|(data & results & Hb & Hp & E)]; rewrite E in Hr.
    - by apply elem_of_nil in Hr.
    - apply CapFacts.slice_sorted_elem in Hr.
      destruct (Hres _ _ _ Hp Hr) as (i & item & items & H). tauto. }
  intros kvs items i item link Hb Hitems Hi Hlink Hd r Hr Hrank.
  destruct (SearchFacts.search_cases netloc backend api_key query site_filter time_range top_k w)
    as [E|(data & results & Hb' & Hp & E)]; rewrite E in Hr.
  - by apply elem_of_nil in Hr.
  - apply CapFacts.slice_sorted_elem in Hr.
    destruct (Hres _ _ _ Hp Hr) as (i' & item' & items' & Hits & Hi' & Hrk & Hl & Hs & Ha).
    rewrite Hb in Hb'. injection Hb' as <-.
    simpl in Hits. rewrite Hitems in Hits. injection Hits as <-.
    assert (i' = i) as -> by lia.
    rewrite Hi in Hi'. injection Hi' as <-.
    rewrite Hlink in Hl. injection Hl as ->.
    congruence.
Qed.

Lemma disallowed_hits_dropped_witness :
  Forall (fun r => rank r ≠ 2)
    (search Url.netloc ex_backend "k" "argo floats" None "year" 5 (mkNet [])).1.
Proof.
  apply Forall_forall.
  apply (disallowed_hits_dropped Url.netloc ex_backend "k" "argo floats" None "year" 5 (mkNet []))
    with (i := 1%nat) (item := ex_hit "https://www.facebook.com/argo" "a post")
         (link := PyStr "https://www.facebook.com/argo")
         (items := [ ex_hit "https://example.org/argo" "a blog";
                     ex_hit "https://www.facebook.com/argo" "a post";
                     ex_hit "https://argo.ucsd.edu/about" "About Argo";
                     ex_hit "https://incois.gov.in/argo" "INCOIS Argo" ])
         (kvs := [ ("items", PyList
                     [ ex_hit "https://example.org/argo" "a blog";
                       ex_hit "https://www.facebook.com/argo" "a post";
                       ex_hit "https://argo.ucsd.edu/about" "About Argo";
                       ex_hit "https://incois.gov.in/argo" "INCOIS Argo" ]) ]).
  - reflexivity.
  - reflexivity.
  - reflexivity.
  - reflexivity.
  - reflexivity.
Defined.

(** C10.  For a cap between 1 and 10, [search] returns at most [top_k]
    results, however many allowed hits the backend returns. *)
Theorem search_at_most_top_k (netloc : string → res string)
    (backend : SearchParams → backend_reply) (api_key : string)
    (query : string) (site_filter : option (list string)) (time_range : string)
    (top_k : Z) (w : Net) :
  1 ≤ top_k ≤ 10 →
  Z.of_nat (length (search netloc backend api_key query site_filter time_range top_k w).1)
  ≤ top_k.
Proof.
  intros Hk.
  destruct (SearchFacts.search_cases netloc backend api_key query site_filter time_range top_k w)
    as [E|(data & results & _ & _ & E)]; rewrite E.
  - simpl. lia.
  - apply CapFacts.slice_length. lia.
Qed.

Lemma search_at_most_top_k_witness :
  Z.of_nat (length (search Url.netloc ex_backend "k" "argo floats" None "year" 2 (mkNet [])).1)
  ≤ 2.
Proof.
  apply (search_at_most_top_k Url.netloc ex_backend "k" "argo floats" None "year" 2 (mkNet [])).
  lia.
Defined.

Example search_capped :
  map (fun r => (rank r, source r))
    (search Url.netloc ex_backend "k" "argo floats" None "year" 2 (mkNet [])).1
  = [ (4, "incois.gov.in"); (3, "argo.ucsd.edu") ].
Proof. reflexivity. Qed.

(** ** The [/search] endpoint *)

Module EndpointFacts.
Import Endpoint.

Section Facts.
Variable netloc : string → res string.
Variable backend : SearchParams → backend_reply.
Variable api_key : string.

Lemma time_range_check (t : string) :
  existsb (String.eqb t) ["any"; "year"; "month"; "week"] = true ↔ t ∈ time_ranges.
Proof.
  unfold time_ranges. simpl.
  rewrite !orb_true_iff, !String.eqb_eq, !elem_of_cons, elem_of_nil.
  intuition congruence.
Qed.

Lemma rejected (request : SearchRequest) (w : Net) :
  ¬ valid request →
  ∃ detail, api_search netloc backend api_key request w = (HTTPException 400 detail, w).
Proof.
  intros Hnv. unfold api_search.
  destruct ((top_k request <? 1) || (top_k request >? 10)) eqn:Ek; [by eexists|].
  destruct (existsb _ _) eqn:Et; simpl; [|by eexists].
  exfalso. apply Hnv. split; [|by apply time_range_check].
  apply orb_false_iff in Ek as [E1 E2]. lia.
Qed.

Lemma accepted (request : SearchRequest) (w : Net) :
  valid request →
  sent (api_search netloc backend api_key request w).2
  = (sent w ++ [build_params api_key (query request) (site_filter request)
                  (time_range request) (top_k request)])%list
  ∧ ((∃ results,
        (api_search netloc backend api_key request w).1 = Http200 results
        ∧ mapM api_result
            (search netloc backend api_key (query request) (site_filter request)
               (time_range request) (top_k request) w).1 = Ok results)
     ∨ ∃ detail, (api_search netloc backend api_key request w).1 = HTTPException 500 detail).
Proof.
  intros [Hk Ht]. unfold api_search.
  replace ((top_k request <? 1) || (top_k request >? 10)) with false
    by (symmetry; apply orb_false_iff; lia).
  apply time_range_check in Ht. rewrite Ht. simpl.
  pose proof (SearchFacts.search_sent netloc backend api_key (query request)
                (site_filter request) (time_range request) (top_k request) w) as Hs.
  destruct (search netloc backend api_key _ _ _ _ w) as [results w'].
  simpl in *.
  destruct (mapM api_result results) as [rs|e]; simpl.
  - split; [done|]. left. by exists rs.
  - split; [done|]. right. by eexists.
Qed.

(** The request parameters of a valid request carry its values. *)
Lemma params_pass_through (request : SearchRequest) :
  valid request →
  let params := build_params api_key (query request) (site_filter request)
                  (time_range request) (top_k request) in
  p_num params = top_k request
  ∧ p_dateRestrict params =
      (if String.eqb (time_range request) "any" then None
       else if String.eqb (time_range request) "week" then Some "d7"
       else if String.eqb (time_range request) "month" then Some "m1"
       else Some "y1")
  ∧ (p_dateRestrict params = Some "y1" → time_range request = "year").
Proof.
  intros [Hk Ht]. simpl. split; [lia|]. split.
  - unfold date_restrict. by repeat destruct (String.eqb _ _).
  - unfold time_ranges in Ht.
    rewrite !elem_of_cons, elem_of_nil in Ht.
    destruct Ht as [->|[->|[->|[->|[]]]]]; by vm_compute.
Qed.

End Facts.

End EndpointFacts.

(** C6.  The endpoint rejects a [top_k] outside 1..10 and a [time_range]
    outside {any, week, month, year} with a 400 answer and leaves the
    network untouched: no request has been sent.  A valid request sends
    exactly one backend request, whose [num] is the [top_k] given and whose
    date restriction is the one of the [time_range] given; it is never
    answered with a 400. *)
Theorem api_search_validation (netloc : string → res string)
    (backend : SearchParams → backend_reply) (api_key : string)
    (request : SearchRequest) (w : Net) :
  (¬ Endpoint.valid request →
     ∃ detail, api_search netloc backend api_key request w = (HTTPException 400 detail, w))
  ∧ (Endpoint.valid request →
     let params := build_params api_key (query request) (site_filter request)
                     (time_range request) (top_k request) in
     sent (api_search netloc backend api_key request w).2 = (sent w ++ [params])%list
     ∧ p_num params = top_k request
     ∧ p_dateRestrict params =
         (if String.eqb (time_range request) "any" then None
          else if String.eqb (time_range request) "week" then Some "d7"
          else if String.eqb (time_range request) "month" then Some "m1"
          else Some "y1")
     ∧ (p_dateRestrict params = Some "y1" → time_range request = "year")
     ∧ ((∃ results,
           (api_search netloc backend api_key request w).1 = Http200 results
           ∧ mapM api_result
               (search netloc backend api_key (query request) (site_filter request)
                  (time_range request) (top_k request) w).1 = Ok results)
        ∨ ∃ detail, (api_search netloc backend api_key request w).1 = HTTPException 500 detail)).
Proof.
  split; [apply EndpointFacts.rejected|].
  intros Hv. cbv zeta.
  destruct (EndpointFacts.accepted netloc backend api_key request w Hv) as [H1 H2].
  destruct (EndpointFacts.params_pass_through api_key request Hv) as (H3 & H4 & H5).
  done.
Qed.

Lemma api_search_validation_witness :
  (∃ detail, api_search Url.netloc ex_backend "k" (ex_request "year" 11) (mkNet [])
             = (HTTPException 400 detail, mkNet []))
  ∧ sent (api_search Url.netloc ex_backend "k" (ex_request "week" 3) (mkNet [])).2
    = [build_params "k" "argo floats" None "week" 3].
Proof.
  split.
  - apply (api_search_validation Url.netloc ex_backend "k" (ex_request "year" 11) (mkNet [])).
    unfold Endpoint.valid. simpl. lia.
  - apply (api_search_validation Url.netloc ex_backend "k" (ex_request "week" 3) (mkNet [])).
    unfold Endpoint.valid, Endpoint.time_ranges. simpl. split; [lia|set_solver].
Defined.

(** ** The intent classifier and the query enhancer *)

Example classify_examples :
  Agent.classify_intent "What is Argo?" = "program_overview"
  ∧ Agent.classify_intent "Salinity level in the Bay of Bengal" = "indian_ocean_status"
  ∧ Agent.classify_intent "GDAC mirrors" = "find_data_access"
  ∧ Agent.classify_intent "show me an ARGO MAP" = "nearest_floats_concept".
Proof. by vm_compute. Qed.

Module ClassifyFacts.
Import Agent Classify.

(** Every pattern of the table is literal, so that [re.search] on it is
    the substring search of [re_search]. *)
Lemma patterns_literal :
  forallb literal_pattern (concat (map snd intent_patterns)) = true.
Proof. reflexivity. Qed.

(** The scan returns the first entry with a matching pattern, or the
    default when there is none. *)
Lemma scan_first (table : list (string * list string)) (text : string) :
  (∃ k intent patterns,
     table !! k = Some (intent, patterns)
     ∧ any_pattern patterns text = true
     ∧ (∀ j c pc, (j < k)%nat → table !! j = Some (c, pc) → any_pattern pc text = false)
     ∧ scan_intents table text = intent)
  ∨ ((∀ j c pc, table !! j = Some (c, pc) → any_pattern pc text = false)
     ∧ scan_intents table text = "program_overview").
Proof.
  induction table as [|[intent patterns] table IH]; simpl.
  - right. split; [|done]. intros j c pc Hj. by destruct j.
  - destruct (any_pattern patterns text) eqn:Hm.
    + left. exists 0%nat, intent, patterns. repeat split; try done.
      intros j c pc Hj. lia.
    + destruct IH as [(k & it & ps & Hk & Hmk & Hbefore & Hs)|[Hnone Hs]].
      * left. exists (S k), it, ps. repeat split; try done.
        intros [|j] c pc Hj Hl; simpl in Hl.
        -- by simplify_eq.
        -- apply (Hbefore j c pc); [lia|done].
      * right. split; [|done].
        intros [|j] c pc Hl; simpl in Hl.
        -- by simplify_eq.
        -- by apply (Hnone j c pc).
Qed.

Lemma scan_member (table : list (string * list string)) (text : string) :
  scan_intents table text ∈ map fst table ∨ scan_intents table text = "program_overview".
Proof.
  induction table as [|[intent patterns] table IH]; simpl; [by right|].
  destruct (any_pattern patterns text).
  - left. apply elem_of_cons. by left.
  - destruct IH as [IH|IH]; [left|by right]. apply elem_of_cons. by right.
Qed.

Lemma classify_member (T : string) : classify_intent T ∈ intents.
Proof.
  unfold classify_intent, intents.
  destruct (scan_member intent_patterns (Str.lower T)) as [H | ->]; [done|].
  apply elem_of_cons. by left.
Qed.

Lemma classify_no_match (T : string) :
  (∀ j intent patterns,
     intent_patterns !! j = Some (intent, patterns) →
     any_pattern patterns (Str.lower T) = false) →
  classify_intent T = "program_overview".
Proof.
  intros Hnone. unfold classify_intent.
  destruct (scan_first intent_patterns (Str.lower T))
    as [(k & it & ps & Hk & Hmk & _)|[_ Hs]]; [|done].
  rewrite (Hnone k it ps Hk) in Hmk. done.
Qed.

Lemma classify_first (T : string) (i : nat) :
  matches_at i (Str.lower T) →
  ∃ k pk, (k ≤ i)%nat
          ∧ intent_patterns !! k = Some (classify_intent T, pk)
          ∧ any_pattern pk (Str.lower T) = true
          ∧ no_match_before k (Str.lower T).
Proof.
  intros (A & pa & Hi & Hm). unfold classify_intent.
  destruct (scan_first intent_patterns (Str.lower T))
    as [(k & it & ps & Hk & Hmk & Hbefore & Hs)|[Hnone _]].
  - exists k, ps. rewrite Hs. split; [|done].
    destruct (decide (k ≤ i)%nat) as [|Hgt]; [done|].
    rewrite (Hbefore i A pa) in Hm; [done|lia|done].
  - rewrite (Hnone i A pa Hi) in Hm. done.
Qed.

Lemma classify_first_match (T : string) (i : nat) (A : string) (pa : list string) :
  intent_patterns !! i = Some (A, pa) →
  any_pattern pa (Str.lower T) = true →
  no_match_before i (Str.lower T) →
  classify_intent T = A.
Proof.
  intros Hi Hm Hbefore.
  destruct (classify_first T i) as (k & pk & Hle & Hk & Hmk & _); [by exists A, pa|].
  destruct (decide (k = i)) as [->|Hne].
  - rewrite Hi in Hk. by injection Hk as ->.
  - rewrite (Hbefore k (classify_intent T) pk) in Hmk; [done|lia|done].
Qed.

End ClassifyFacts.

Module EnhanceFacts.
Import Agent Enhance.

Lemma default_hint_lookup : enhanced_queries !! "program_overview" = Some default_hint.
Proof. by vm_compute. Qed.

Lemma unknown_intent (intent : string) :
  intent ∉ intents → enhanced_queries !! intent = None.
Proof.
  unfold intents. simpl. rewrite !not_elem_of_cons. intros (H1 & H2 & H3 & H4 & _).
  unfold enhanced_queries.
  rewrite !lookup_insert_ne by done. apply lookup_empty.
Qed.

Lemma known_intent (intent : string) :
  intent ∈ intents → is_Some (enhanced_queries !! intent).
Proof.
  unfold intents. simpl. rewrite !elem_of_cons, elem_of_nil.
  intros [->|[->|[->|[->|[]]]]]; vm_compute; by eexists.
Qed.

Lemma prefix_of_append (s t : string) : Str.startswith (s ++ t) s = true.
Proof.
  induction s as [|c s IH]; simpl; [by destruct t|].
  by rewrite Ascii.eqb_refl.
Qed.

Lemma enhance_query_eq (T intent : string) :
  enhance_query T intent = Ok (T ++ " " ++ hint_for intent).
Proof.
  unfold enhance_query, hint_getitem, hint_for. by rewrite default_hint_lookup.
Qed.

Lemma app_space_nonempty (s t : string) : s ++ " " ++ t ≠ "".
Proof. by destruct s. Qed.

End EnhanceFacts.

(** C7.  [classify_intent] is a function of its text alone and is defined on
    every text; its value is always one of the four intents of the pattern
    table; on the empty text, on ["zzz_no_match_zzz"], and on every text
    that matches no pattern, it is the default intent [program_overview]. *)
Theorem classify_intent_total (T : string) :
  Agent.classify_intent T ∈ Agent.intents
  ∧ Agent.intents =
      [ "program_overview"; "indian_ocean_status"; "find_data_access";
        "nearest_floats_concept" ]
  ∧ Agent.classify_intent "" = "program_overview"
  ∧ Agent.classify_intent "zzz_no_match_zzz" = "program_overview"
  ∧ ((∀ j intent patterns,
        Agent.intent_patterns !! j = Some (intent, patterns) →
        Agent.any_pattern patterns (Str.lower T) = false) →
     Agent.classify_intent T = "program_overview").
Proof.
  split; [apply ClassifyFacts.classify_member|].
  split; [reflexivity|]. split; [reflexivity|]. split; [reflexivity|].
  apply ClassifyFacts.classify_no_match.
Qed.

Lemma classify_intent_total_witness :
  Agent.classify_intent "Tell me about OCEAN tides" = "program_overview".
Proof.
  apply (classify_intent_total "Tell me about OCEAN tides").
  intros j intent patterns Hj.
  do 4 (destruct j as [|j]; [injection Hj as <- <-; reflexivity|]).
  discriminate Hj.
Defined.

(** C8, as worded, fails when a third intent, declared before both, also
    matches: this text matches [find_data_access] ("gdac") and
    [nearest_floats_concept] ("floats near"), and is classified as
    [program_overview] ("argo floats"). *)
Lemma earlier_of_two_counterexample :
  Agent.classify_intent "argo floats near gdac" = "program_overview"
  ∧ ¬ Classify.earlier_of_two_wins.
Proof.
  split; [reflexivity|].
  intros H.
  specialize (H "argo floats near gdac" 2%nat 3%nat _ _ _ _ eq_refl eq_refl).
  discriminate H; [lia | reflexivity | reflexivity].
Qed.

(** C8, amended.  Intents are scanned in declaration order against the
    lower-cased text and the first intent with a matching pattern is
    returned.  So when the text matches a pattern of [A], the result is [A]
    whenever no intent declared before [A] matches, whatever matches later;
    and in every case the result is a matching intent declared no later
    than [A], never one declared after it. *)
Theorem first_matching_intent_wins (T : string) (i : nat) (A : string) (pa : list string) :
  Agent.intent_patterns !! i = Some (A, pa) →
  Agent.any_pattern pa (Str.lower T) = true →
  Agent.classify_intent T = Agent.scan_intents Agent.intent_patterns (Str.lower T)
  ∧ (Classify.no_match_before i (Str.lower T) → Agent.classify_intent T = A)
  ∧ (∃ k pk, (k ≤ i)%nat
             ∧ Agent.intent_patterns !! k = Some (Agent.classify_intent T, pk)
             ∧ Agent.any_pattern pk (Str.lower T) = true
             ∧ Classify.no_match_before k (Str.lower T)).
Proof.
  intros Hi Hm. split; [reflexivity|]. split.
  - by apply ClassifyFacts.classify_first_match with pa.
  - apply ClassifyFacts.classify_first. by exists A, pa.
Qed.

Lemma first_matching_intent_wins_witness :
  Agent.classify_intent "Bay of Bengal data from GDAC" = "indian_ocean_status".
Proof.
  apply (first_matching_intent_wins "Bay of Bengal data from GDAC" 1%nat
           "indian_ocean_status"
           [ "indian ocean argo"; "status of argo floats in arabian sea";
             "bay of bengal floats"; "bay of bengal"; "bengal salinity";
             "salinity level"; "argo india"; "incois argo"; "indian ocean status" ]).
  - reflexivity.
  - reflexivity.
  - intros j intent patterns Hj Hl.
    destruct j as [|j]; [injection Hl as <- <-; reflexivity|lia].
Defined.

(** C9.  [enhance_query] never raises: for every text and every intent
    string it returns the text, one blank, and the hint of the intent - the
    hint of [program_overview] when the intent is not in the table.  The
    result is not empty and begins with the text. *)
Theorem enhance_query_total (T intent : string) :
  Agent.enhance_query T intent = Ok (T ++ " " ++ Enhance.hint_for intent)
  ∧ (∀ h, Agent.enhanced_queries !! intent = Some h → Enhance.hint_for intent = h)
  ∧ (intent ∈ Agent.intents → is_Some (Agent.enhanced_queries !! intent))
  ∧ (intent ∉ Agent.intents → Enhance.hint_for intent = Enhance.default_hint)
  ∧ Agent.enhanced_queries !! "program_overview" = Some Enhance.default_hint
  ∧ T ++ " " ++ Enhance.hint_for intent ≠ ""
  ∧ Str.startswith (T ++ " " ++ Enhance.hint_for intent) T = true.
Proof.
  split; [apply EnhanceFacts.enhance_query_eq|].
  split; [intros h Hh; unfold Enhance.hint_for; by rewrite Hh|].
  split; [apply EnhanceFacts.known_intent|].
  split; [intros Hu; unfold Enhance.hint_for; by rewrite EnhanceFacts.unknown_intent|].
  split; [apply EnhanceFacts.default_hint_lookup|].
  split; [apply EnhanceFacts.app_space_nonempty|apply EnhanceFacts.prefix_of_append].
Qed.

Lemma enhance_query_total_witness :
  Enhance.hint_for "no_such_intent" = Enhance.default_hint.
Proof.
  apply (enhance_query_total "What is Argo?" "no_such_intent").
  unfold Agent.intents. simpl. rewrite !not_elem_of_cons. repeat split; try done.
  apply not_elem_of_nil.
Defined.

Example enhance_example :
  Agent.enhance_query "where is the data" "find_data_access"
  = Ok "where is the data Argo data download access GDAC global data assembly centers netCDF files instructions how to".
Proof. by vm_compute. Qed.


(** * Further properties *)

(** ** Strings *)

Module StrFacts.

Lemma lower_char_idem (c : ascii) : Str.lower_char (Str.lower_char c) = Str.lower_char c.
Proof.
  destruct c as [[] [] [] [] [] [] [] []]; reflexivity.
Qed.

Lemma lower_idem (s : string) : Str.lower (Str.lower s) = Str.lower s.
Proof.
  induction s as [|c s IH]; simpl; [done|]. by rewrite lower_char_idem, IH.
Qed.

Lemma lower_app (s t : string) : Str.lower (s ++ t) = Str.lower s ++ Str.lower t.
Proof.
  induction s as [|c s IH]; simpl; [done|]. by rewrite IH.
Qed.

Lemma lower_drop (n : nat) (s : string) : Str.lower (Str.drop n s) = Str.drop n (Str.lower s).
Proof.
  revert s. induction n as [|n IH]; intros [|c s]; simpl; auto.
Qed.

Lemma startswith_empty (s : string) : Str.startswith s "" = true.
Proof. by destruct s. Qed.

Lemma startswith_app_r (s p t : string) :
  Str.startswith s p = true → Str.startswith (s ++ t) p = true.
Proof.
  revert s. induction p as [|a p IH]; intros s.
  - intros _. apply startswith_empty.
  - destruct s as [|b s]; simpl; [done|].
    destruct (Ascii.eqb a b); [apply IH | done].
Qed.

Lemma contains_app_r (p s t : string) :
  Str.contains p s = true → Str.contains p (s ++ t) = true.
Proof.
  induction s as [|c s IH]; simpl.
  - rewrite orb_false_r. destruct p; [|done]. intros _.
    by destruct t.
  - rewrite !orb_true_iff. intros [H|H].
    + left. by apply (startswith_app_r (String c s)).
    + right. by apply IH.
Qed.

Lemma contains_app_l (p s t : string) :
  Str.contains p s = true → Str.contains p (t ++ s) = true.
Proof.
  intros H. induction t as [|c t IH]; simpl; [done|].
  rewrite IH. apply orb_true_r.
Qed.

(** A string that contains [s] contains what [s] contains. *)
Lemma contains_embed (p s pre post : string) :
  Str.contains p s = true → Str.contains p (pre ++ s ++ post) = true.
Proof. intros H. by apply contains_app_l, contains_app_r. Qed.

Lemma contains_cons (p : string) (c : ascii) (s : string) :
  Str.contains p (String c s) = Str.startswith (String c s) p || Str.contains p s.
Proof. reflexivity. Qed.

Lemma contains_split (p s : string) :
  Str.contains p s = true → ∃ pre post, s = pre ++ p ++ post.
Proof.
  induction s as [|c s IH].
  - simpl. rewrite orb_false_r. destruct p; [|done]. intros _. by exists "", "".
  - rewrite contains_cons, orb_true_iff. intros [H|H].
    + apply DomainFacts.startswith_app in H. exists "". eexists. exact H.
    + destruct (IH H) as (pre & post & ->). by exists (String c pre), post.
Qed.

(** Containment is transitive. *)
Lemma contains_trans (p q s : string) :
  Str.contains p q = true → Str.contains q s = true → Str.contains p s = true.
Proof.
  intros Hpq Hqs. apply contains_split in Hqs as (pre & post & ->).
  by apply contains_embed.
Qed.

End StrFacts.

(** ** More on the ranking *)

Module RankingFacts.
Import Sort KeyOrder SortFacts Order.

Section Generic.
Context {A : Type} (f : A → key).

(** A list that is already in order is returned as it is. *)
Lemma sorted_fixed (l : list A) : StronglySorted (key_le f) l → sorted f l = l.
Proof.
  induction 1 as [|x l Hl IH Hx]; simpl; [done|].
  rewrite IH. destruct Hx as [|y l Hxy _]; simpl; [done|].
  destruct (ltb (f y) (f x)) eqn:E; [|done].
  apply ltb_lt in E. unfold key_le, le in Hxy. unfold lt in E. lia.
Qed.

Lemma sorted_idem (l : list A) : sorted f (sorted f l) = sorted f l.
Proof. apply sorted_fixed, sorted_sorted. Qed.

(** Of two elements of the input, the one with the smaller key comes out
    first. *)
Lemma sorted_before (a b : A) (l : list A) :
  a ∈ l → b ∈ l → lt (f a) (f b) → before a b (sorted f l).
Proof.
  intros Ha Hb Hab.
  rewrite <- (sorted_perm f l) in Ha, Hb.
  pose proof (sorted_sorted f l) as Hs.
  apply list_elem_of_split in Ha as (l1 & l2 & E). rewrite E in Hb, Hs |- *.
  apply elem_of_app in Hb as [Hb|Hb].
  - exfalso. apply StronglySorted_app in Hs as (Hcross & _ & _).
    assert (Hba : key_le f b a) by (apply Hcross; [done | by left]).
    unfold key_le, le in Hba. unfold lt in Hab. lia.
  - apply elem_of_cons in Hb as [->|Hb].
    + exfalso. unfold lt in Hab. lia.
    + apply list_elem_of_split in Hb as (l2' & l3 & ->). by exists l1, l2', l3.
Qed.

End Generic.

Lemma higher_priority_key (a b : SearchResult) :
  priority_idx (source a) < priority_idx (source b) →
  lt (priority_score a) (priority_score b).
Proof. intros H. unfold lt, priority_score. simpl. lia. Qed.

End RankingFacts.

(** X1.  [_sort_by_priority] is stable: for every key, the results that
    carry it come out in the order they went in. *)
Theorem sort_by_priority_stable (k : Sort.key) (results : list SearchResult) :
  Order.with_key k (_sort_by_priority results) = Order.with_key k results.
Proof.
  unfold Order.with_key, _sort_by_priority.
  apply (SortFacts.sorted_stable priority_score k results).
Qed.

(** X2.  Ranking a list that is already in ascending key order changes
    nothing; in particular ranking twice is ranking once. *)
Theorem sort_by_priority_idempotent (results : list SearchResult) :
  (StronglySorted Rank.score_le results → _sort_by_priority results = results)
  ∧ _sort_by_priority (_sort_by_priority results) = _sort_by_priority results.
Proof.
  split.
  - intros Hs. by apply (RankingFacts.sorted_fixed priority_score).
  - apply (RankingFacts.sorted_idem priority_score).
Qed.

Lemma sort_by_priority_idempotent_witness :
  _sort_by_priority [ex_incois; ex_argo; ex_unknown] = [ex_incois; ex_argo; ex_unknown].
Proof.
  apply (proj1 (sort_by_priority_idempotent [ex_incois; ex_argo; ex_unknown])).
  repeat constructor; unfold KeyOrder.le; simpl; lia.
Defined.

(** X3.  The domain priority decides before everything else: of two
    results of the input, the one whose source domain has the smaller
    priority index is ranked before the other, whatever their dates and
    backend ranks; more generally the one with the smaller key is. *)
Theorem higher_priority_domain_first (a b : SearchResult) (results : list SearchResult) :
  a ∈ results → b ∈ results →
  (priority_idx (source a) < priority_idx (source b) →
   Order.before a b (_sort_by_priority results))
  ∧ (KeyOrder.lt (priority_score a) (priority_score b) →
     Order.before a b (_sort_by_priority results)).
Proof.
  intros Ha Hb. split.
  - intros H. apply (RankingFacts.sorted_before priority_score); [done..|].
    by apply RankingFacts.higher_priority_key.
  - intros H. by apply (RankingFacts.sorted_before priority_score).
Qed.

Lemma higher_priority_domain_first_witness :
  Order.before ex_argo ex_dated_2025x (_sort_by_priority [ex_dated_2025x; ex_unknown; ex_argo]).
Proof.
  assert (Ha : ex_argo ∈ [ex_dated_2025x; ex_unknown; ex_argo])
    by (rewrite !elem_of_cons; auto).
  assert (Hb : ex_dated_2025x ∈ [ex_dated_2025x; ex_unknown; ex_argo])
    by (rewrite !elem_of_cons; auto).
  apply (proj1 (higher_priority_domain_first ex_argo ex_dated_2025x
                  [ex_dated_2025x; ex_unknown; ex_argo] Ha Hb)).
  by vm_compute.
Defined.


(** ** More on the deny-list and the source domain *)

Module DenyFacts.

Lemma disallowed_spec (domain : string) :
  _is_disallowed_domain domain = true
  ↔ ∃ pattern, pattern ∈ disallowed_patterns
               ∧ Str.contains pattern (Str.lower domain) = true.
Proof.
  unfold _is_disallowed_domain. rewrite existsb_exists.
  split; intros (p & Hp & Hc); exists p; by rewrite ?list_elem_of_In in *.
Qed.

Lemma disallowed_lower (domain : string) :
  _is_disallowed_domain (Str.lower domain) = _is_disallowed_domain domain.
Proof. unfold _is_disallowed_domain. by rewrite StrFacts.lower_idem. Qed.

Lemma disallowed_embed (domain pre post : string) :
  _is_disallowed_domain domain = true →
  _is_disallowed_domain (pre ++ domain ++ post) = true.
Proof.
  rewrite !disallowed_spec. intros (p & Hp & Hc). exists p. split; [done|].
  rewrite !StrFacts.lower_app. by apply StrFacts.contains_embed.
Qed.

Lemma extract_domain_lower (netloc : string → res string) (url : pyval) :
  Str.lower (_extract_domain netloc url) = _extract_domain netloc url.
Proof.
  destruct url as [| | |u| |]; try done.
  destruct (netloc u) as [n|e] eqn:Hn.
  - rewrite (DomainFacts.extract_domain_netloc _ _ _ Hn).
    destruct (Str.startswith (Str.lower n) "www.").
    + by rewrite StrFacts.lower_drop, StrFacts.lower_idem.
    + apply StrFacts.lower_idem.
  - by rewrite (DomainFacts.extract_domain_raise _ _ _ Hn).
Qed.

End DenyFacts.

(** X4.  The deny test ignores letter case and is closed under embedding:
    when a domain is disallowed, so is every string that contains it, such
    as a subdomain of it or a longer name around it. *)
Theorem disallowed_closed_under_embedding (domain pre post : string) :
  _is_disallowed_domain (Str.lower domain) = _is_disallowed_domain domain
  ∧ (_is_disallowed_domain domain = true →
     _is_disallowed_domain (pre ++ domain ++ post) = true).
Proof.
  split.
  - apply DenyFacts.disallowed_lower.
  - apply DenyFacts.disallowed_embed.
Qed.

Lemma disallowed_closed_under_embedding_witness :
  _is_disallowed_domain ("login." ++ "Twitter.com" ++ ".example.net") = true.
Proof.
  apply (disallowed_closed_under_embedding "Twitter.com" "login." ".example.net").
  reflexivity.
Defined.

(** X5.  The source domain [_extract_domain] derives is always in lower
    case, whatever the URL; on it the deny test is the plain substring test
    against the patterns. *)
Theorem source_domain_lower_case (netloc : string → res string) (url : pyval) :
  Str.lower (_extract_domain netloc url) = _extract_domain netloc url
  ∧ _is_disallowed_domain (_extract_domain netloc url)
    = Hits.denied_as_is (_extract_domain netloc url).
Proof.
  split; [apply DenyFacts.extract_domain_lower|].
  unfold _is_disallowed_domain, Hits.denied_as_is.
  by rewrite DenyFacts.extract_domain_lower.
Qed.


(** ** The date of a page *)

Module DateFacts.
Import Pagemap.

Lemma assoc_well_shaped (kvs : list (string * pyval)) (k : string) (v : pyval) :
  forallb (fun kv => dict_list kv.2) kvs = true →
  Py.assoc k kvs = Some v → dict_list v = true.
Proof.
  induction kvs as [|[k' v'] kvs IH]; simpl; [done|].
  rewrite andb_true_iff. intros [Hv Hrest].
  destruct (String.eqb k k'); [by intros [= <-] | by apply IH].
Qed.

(** The inner loop on an object: the value of the first key it has. *)
Lemma first_date_key_dict (item : list (string * pyval)) (keys : list string) :
  (∃ key v, key ∈ keys ∧ Py.assoc key item = Some v
            ∧ first_date_key (PyDict item) keys = Ok (Some v))
  ∨ ((∀ key, key ∈ keys → Py.assoc key item = None)
     ∧ first_date_key (PyDict item) keys = Ok None).
Proof.
  induction keys as [|k keys IH]; simpl.
  - right. split; [|done]. intros key Hk. by apply elem_of_nil in Hk.
  - res_simpl. destruct (Py.assoc k item) as [v|] eqn:E.
    + left. exists k, v. split; [by left|done].
    + destruct IH as [(key & v & Hk & Ha & Hf)|[Hnone Hf]].
      * left. exists key, v. split; [by right|done].
      * right. split; [|done]. intros key Hk.
        apply elem_of_cons in Hk as [->|Hk]; [done|by apply Hnone].
Qed.

(** One round of the outer loop on an object. *)
Lemma extract_step (kvs : list (string * pyval)) (f : string) (fields : list string) :
  extract_date_fields (PyDict kvs) (f :: fields) =
    match Py.assoc f kvs with
    | Some (PyList (item :: _)) =>
        match first_date_key item date_keys with
        | Ok (Some v) => Ok v
        | Ok None => extract_date_fields (PyDict kvs) fields
        | Raise e => Raise e
        end
    | _ => extract_date_fields (PyDict kvs) fields
    end.
Proof.
  cbn [extract_date_fields]. unfold Py.contains, Py.getitem.
  destruct (Py.assoc f kvs) as [[| | | |[|item rest]|]|]; reflexivity.
Qed.

(** The outer loop on a well-shaped pagemap. *)
Lemma extract_well_shaped (kvs : list (string * pyval)) (fields : list string) :
  forallb (fun kv => dict_list kv.2) kvs = true →
  (∃ v, extract_date_fields (PyDict kvs) fields = Ok v
        ∧ holds_under fields date_keys (PyDict kvs) v)
  ∨ (extract_date_fields (PyDict kvs) fields = Ok PyNone
     ∧ ∀ v, ¬ holds_under fields date_keys (PyDict kvs) v).
Proof.
  intros Hws. induction fields as [|f fields IH].
  - right. split; [done|].
    intros v (kvs' & field & item & rest & key & _ & Hf & _). by apply elem_of_nil in Hf.
  - assert (Hweaken : ∀ v, holds_under fields date_keys (PyDict kvs) v →
                           holds_under (f :: fields) date_keys (PyDict kvs) v).
    { intros v (kvs' & field & item & rest & key & E & Hf & Hrest).
      exists kvs', field, item, rest, key. split; [done|]. split; [by right|done]. }
    assert (Hskip : (∀ v, ¬ holds_under [f] date_keys (PyDict kvs) v) →
              (∃ v, extract_date_fields (PyDict kvs) fields = Ok v
                    ∧ holds_under (f :: fields) date_keys (PyDict kvs) v)
              ∨ (extract_date_fields (PyDict kvs) fields = Ok PyNone
                 ∧ ∀ v, ¬ holds_under (f :: fields) date_keys (PyDict kvs) v)).
    { intros Hnot. destruct IH as [(v & Hv & Hh)|[Hnone Hno]].
      - left. exists v. split; [done|by apply Hweaken].
      - right. split; [done|].
        intros v (kvs' & field & item & rest & key & E & Hf & Hk & Ha & Hi).
        apply elem_of_cons in Hf as [->|Hf].
        + apply (Hnot v). exists kvs', f, item, rest, key.
          split; [done|]. split; [by left|done].
        + apply (Hno v). by exists kvs', field, item, rest, key. }
    rewrite extract_step. destruct (Py.assoc f kvs) as [items|] eqn:Ef.
    + pose proof (assoc_well_shaped _ _ _ Hws Ef) as Hitems.
      destruct items as [| | | |l|]; try done.
      destruct l as [|first rest].
      * apply Hskip. intros v (kvs' & field & item & rest & key & E & Hf & _ & Ha & _).
        apply list_elem_of_singleton in Hf as ->. injection E as <-. congruence.
      * simpl in Hitems. apply andb_true_iff in Hitems as [Hfirst _].
        destruct first as [| | | | |item]; try done.
        destruct (first_date_key_dict item date_keys)
          as [(key & v & Hk & Ha & Hfk)|[Hnone Hfk]]; rewrite Hfk.
        -- left. exists v. split; [done|].
           exists kvs, f, item, rest, key. split; [done|]. split; [by left|done].
        -- apply Hskip.
           intros v (kvs' & field & item' & rest' & key & E & Hf & Hk & Ha & Hi).
           apply list_elem_of_singleton in Hf as ->. injection E as <-.
           rewrite Ef in Ha. injection Ha as <- <-. rewrite (Hnone key Hk) in Hi. done.
    + apply Hskip. intros v (kvs' & field & item & rest & key & E & Hf & _ & Ha & _).
      apply list_elem_of_singleton in Hf as ->. injection E as <-. congruence.
Qed.

Lemma assoc_heads (kvs : list (string * pyval)) (k : string) :
  Py.assoc k (map (fun kv => (kv.1, head_only kv.2)) kvs) = head_only <$> Py.assoc k kvs.
Proof.
  induction kvs as [|[k' v] kvs IH]; simpl; [done|].
  by destruct (String.eqb k k').
Qed.

Lemma extract_heads (kvs : list (string * pyval)) (fields : list string) :
  extract_date_fields (heads (PyDict kvs)) fields = extract_date_fields (PyDict kvs) fields.
Proof.
  induction fields as [|f fields IH]; [done|].
  unfold heads in *. rewrite !extract_step, assoc_heads.
  destruct (Py.assoc f kvs) as [[| | | |[|first rest]|]|];
    cbn [fmap option_fmap option_map head_only]; try exact IH.
  destruct (first_date_key first date_keys) as [[v|]|];
    [reflexivity | exact IH | reflexivity].
Qed.

End DateFacts.

(** X6.  On a pagemap of the usual shape (an object whose values are lists
    of objects) [_extract_date] never raises: it returns a value that stands
    under a date key in the first entry of a date field, or [None] when no
    such value exists. *)
Theorem extract_date_well_shaped (meta : pyval) :
  Pagemap.well_shaped meta = true →
  (∃ v, _extract_date meta = Ok v ∧ Pagemap.holds_date meta v)
  ∨ (_extract_date meta = Ok PyNone ∧ ∀ v, ¬ Pagemap.holds_date meta v).
Proof.
  destruct meta as [| | | | |kvs]; try done.
  intros Hws. by apply DateFacts.extract_well_shaped.
Qed.

Lemma extract_date_well_shaped_witness :
  (∃ v, _extract_date ex_pagemap = Ok v ∧ Pagemap.holds_date ex_pagemap v)
  ∨ (_extract_date ex_pagemap = Ok PyNone ∧ ∀ v, ¬ Pagemap.holds_date ex_pagemap v).
Proof.
  apply (extract_date_well_shaped ex_pagemap). reflexivity.
Defined.

(** X7.  [_extract_date] consults only the first entry of each metadata
    list: cutting every list of the pagemap down to its first entry does
    not change what it returns, or whether it raises. *)
Theorem extract_date_first_entries_only (meta : pyval) :
  _extract_date (Pagemap.heads meta) = _extract_date meta.
Proof.
  destruct meta as [| | | | |kvs]; try reflexivity.
  apply DateFacts.extract_heads.
Qed.

(** X8.  The fields and keys are tried in a fixed order and the first hit
    wins: a [published_time] in the first entry of [metatags] is what
    [_extract_date] returns, whatever else the pagemap holds. *)
Theorem metatags_published_time_wins (kvs item : list (string * pyval))
    (rest : list pyval) (v : pyval) :
  Py.assoc "metatags" kvs = Some (PyList (PyDict item :: rest)) →
  Py.assoc "published_time" item = Some v →
  _extract_date (PyDict kvs) = Ok v.
Proof.
  intros Hm Hp. unfold _extract_date, date_fields.
  rewrite DateFacts.extract_step, Hm.
  unfold date_keys. cbn [first_date_key Py.contains Py.getitem]. rewrite Hp.
  reflexivity.
Qed.

Lemma metatags_published_time_wins_witness :
  _extract_date ex_pagemap = Ok (PyStr "2024-11-30").
Proof.
  apply (metatags_published_time_wins _
           [ ("og:title", PyStr "Argo"); ("modified_time", PyStr "2025-02-01");
             ("published_time", PyStr "2024-11-30") ]
           [ PyDict [ ("date", PyStr "1999") ] ]).
  - reflexivity.
  - reflexivity.
Defined.

(** ** More on the search executor *)

Module HitFacts.

Section Facts.
Variable netloc : string → res string.

(** Where the fields of a parsed result come from. *)
Lemma parse_item_fields (idx : Z) (item : pyval) (r : SearchResult) :
  parse_item netloc idx item = Ok (Some r) →
  Py.get item "title" (PyStr "") = Ok (PyStr (title r))
  ∧ Py.get item "snippet" (PyStr "") = Ok (PyStr (snippet r))
  ∧ updated r = PyNone
  ∧ (Py.contains "pagemap" item = Ok false → published r = PyNone)
  ∧ (Py.contains "pagemap" item = Ok true →
     ∃ meta, Py.getitem item "pagemap" = Ok meta ∧ _extract_date meta = Ok (published r)).
Proof.
  unfold parse_item. intros H.
  apply bind_inv in H as (link & Hlink & H).
  destruct (_is_disallowed_domain (_extract_domain netloc link)); [done|].
  apply bind_inv in H as (ti & Hti & H).
  apply bind_inv in H as (sn & Hsn & H).
  apply bind_inv in H as (r0 & Hnew & H).
  apply bind_inv in H as (has & Hhas & H).
  apply bind_inv in H as (r1 & Hr1 & H).
  injection H as <-.
  unfold SearchResult_new in Hnew.
  apply bind_inv in Hnew as (ti' & Hti' & Hnew).
  apply bind_inv in Hnew as (u & Hu & Hnew).
  apply bind_inv in Hnew as (sn' & Hsn' & Hnew).
  injection Hnew as <-.
  destruct ti; try done. injection Hti' as ->.
  destruct sn; try done. injection Hsn' as ->.
  rewrite Hhas. destruct has.
  - apply bind_inv in Hr1 as (meta & Hmeta & Hr1).
    apply bind_inv in Hr1 as (date & Hdate & Hr1).
    injection Hr1 as <-. simpl. repeat split; try done.
    intros _. by exists meta.
  - injection Hr1 as <-. simpl. repeat split; done.
Qed.

(** An allowed hit is not skipped. *)
Lemma parse_item_allowed (idx : Z) (item : pyval) (parsed : option SearchResult) :
  Hits.allowed netloc item = true →
  parse_item netloc idx item = Ok parsed → ∃ r, parsed = Some r.
Proof.
  unfold Hits.allowed, parse_item. intros Ha H.
  apply bind_inv in H as (link & Hlink & H). rewrite Hlink in Ha.
  apply negb_true_iff in Ha. rewrite Ha in H.
  apply bind_inv in H as (ti & _ & H).
  apply bind_inv in H as (sn & _ & H).
  apply bind_inv in H as (r0 & _ & H).
  apply bind_inv in H as (has & _ & H).
  apply bind_inv in H as (r1 & _ & H).
  injection H as <-. by exists r1.
Qed.

Lemma parse_item_skipped (idx : Z) (item : pyval) (parsed : option SearchResult) :
  Hits.allowed netloc item = false →
  parse_item netloc idx item = Ok parsed → parsed = None.
Proof.
  unfold Hits.allowed, parse_item. intros Ha H.
  apply bind_inv in H as (link & Hlink & H). rewrite Hlink in Ha.
  apply negb_false_iff in Ha. rewrite Ha in H. by injection H as <-.
Qed.

(** The loop keeps exactly the allowed hits. *)
Lemma parse_items_count (items : list pyval) :
  ∀ (idx : Z) (results : list SearchResult),
    parse_items netloc idx items = Ok results →
    length results = length (List.filter (Hits.allowed netloc) items).
Proof.
  induction items as [|item items IH]; intros idx results; simpl.
  - by intros [= <-].
  - intros H.
    apply bind_inv in H as (parsed & Hp & H).
    apply bind_inv in H as (rest & Hrest & H). injection H as <-.
    specialize (IH _ _ Hrest).
    destruct (Hits.allowed netloc item) eqn:Ha.
    + destruct (parse_item_allowed _ _ _ Ha Hp) as [r ->]. simpl. by rewrite IH.
    + by rewrite (parse_item_skipped _ _ _ Ha Hp).
Qed.

Lemma parse_items_complete (items : list pyval) :
  ∀ (idx : Z) (results : list SearchResult) (i : nat) (item : pyval),
    parse_items netloc idx items = Ok results →
    items !! i = Some item → Hits.allowed netloc item = true →
    ∃ r, r ∈ results ∧ parse_item netloc (idx + Z.of_nat i) item = Ok (Some r).
Proof.
  induction items as [|first items IH]; intros idx results i item; simpl; [done|].
  intros H Hi Ha.
  apply bind_inv in H as (parsed & Hp & H).
  apply bind_inv in H as (rest & Hrest & H). injection H as <-.
  destruct i as [|i]; simpl in Hi.
  - injection Hi as ->.
    destruct (parse_item_allowed _ _ _ Ha Hp) as [r ->].
    exists r. split; [by left|]. by rewrite Z.add_0_r.
  - destruct (IH _ _ _ _ Hrest Hi Ha) as (r & Hr & Hpr).
    exists r. split.
    + destruct parsed; [by right|done].
    + replace (idx + Z.of_nat (S i)) with (idx + 1 + Z.of_nat i) by lia. done.
Qed.

(** The ranks of the parsed results increase along the list. *)
Lemma parse_items_ranks (items : list pyval) :
  ∀ (idx : Z) (results : list SearchResult),
    parse_items netloc idx items = Ok results →
    StronglySorted Z.lt (map rank results)
    ∧ Forall (fun r => idx < rank r ≤ idx + Z.of_nat (length items)) results.
Proof.
  induction items as [|item items IH]; intros idx results; simpl.
  - intros [= <-]. split; constructor.
  - intros H.
    apply bind_inv in H as (parsed & Hp & H).
    apply bind_inv in H as (rest & Hrest & H). injection H as <-.
    destruct (IH _ _ Hrest) as [Hs Hb].
    assert (Hb' : Forall (fun r => idx < rank r ≤ idx + Z.of_nat (S (length items))) rest).
    { eapply Forall_impl; [exact Hb|]. intros r Hr. simpl in Hr. lia. }
    destruct parsed as [r|]; [|done].
    apply ParseFacts.parse_item_some in Hp as (Hrk & _).
    split.
    + simpl. constructor; [done|]. apply Forall_fmap.
      eapply Forall_impl; [exact Hb|]. intros r' Hr'. simpl in *. lia.
    + constructor; [lia|done].
Qed.

End Facts.

Lemma lt_NoDup (l : list Z) : StronglySorted Z.lt l → NoDup l.
Proof.
  induction 1 as [|x l _ IH Hx]; constructor; [|done].
  intros Hin. rewrite Forall_forall in Hx. specialize (Hx x Hin). lia.
Qed.

End HitFacts.


Module SearchMore.

Lemma startswith_refl (s : string) : Str.startswith s s = true.
Proof. induction s as [|a s IH]; simpl; [done|]. by rewrite Ascii.eqb_refl. Qed.

Lemma contains_self (s : string) : Str.contains s s = true.
Proof.
  destruct s as [|c s]; [done|].
  by rewrite StrFacts.contains_cons, startswith_refl.
Qed.

Lemma join_contains (sep x : string) (parts : list string) :
  x ∈ parts → Str.contains x (Str.join sep parts) = true.
Proof.
  induction parts as [|p parts IH]; [by intros H; apply elem_of_nil in H|].
  intros H. apply elem_of_cons in H as [->|H].
  - destruct parts as [|q parts]; [apply contains_self|].
    change (Str.join sep (p :: q :: parts)) with (p ++ sep ++ Str.join sep (q :: parts)).
    apply (StrFacts.contains_embed p p "" (sep ++ Str.join sep (q :: parts))), contains_self.
  - destruct parts as [|q parts]; [by apply elem_of_nil in H|].
    change (Str.join sep (p :: q :: parts)) with (p ++ sep ++ Str.join sep (q :: parts)).
    apply StrFacts.contains_app_l, StrFacts.contains_app_l. by apply IH.
Qed.

(** From an order with distinct marks to the strict order. *)
Lemma strictly_sorted (l : list SearchResult) :
  StronglySorted Rank.score_le l → NoDup (map rank l) →
  StronglySorted Strict.score_lt l.
Proof.
  induction 1 as [|x l Hl IH Hx]; intros Hnd; [constructor|].
  simpl in Hnd. apply NoDup_cons in Hnd as [Hx' Hnd].
  constructor; [by apply IH|].
  rewrite Forall_forall in Hx |- *. intros y Hy.
  assert (rank x ≠ rank y).
  { intros E. apply Hx'. rewrite E. by apply list_elem_of_fmap_2. }
  specialize (Hx y Hy).
  unfold Rank.score_le, Strict.score_lt, KeyOrder.le, KeyOrder.lt, priority_score in *.
  simpl in *. lia.
Qed.

Lemma slice_is_take {A : Type} (l : list A) (k : Z) : ∃ n, Py.slice_to l k = take n l.
Proof. unfold Py.slice_to. destruct (k <? 0); eauto. Qed.

Lemma take_sorted {A : Type} (R : relation A) (n : nat) (l : list A) :
  StronglySorted R l → StronglySorted R (take n l).
Proof.
  intros H. rewrite <- (take_drop n l) in H. by apply StronglySorted_app_1_l in H.
Qed.

Section Facts.
Variable netloc : string → res string.
Variable backend : SearchParams → backend_reply.
Variable api_key : string.

(** What [search] returns, traced back to the payload. *)
Lemma search_payload query site_filter time_range top_k w :
  (search netloc backend api_key query site_filter time_range top_k w).1 = []
  ∨ ∃ data items results,
      backend (build_params api_key query site_filter time_range top_k) = Payload data
      ∧ Hits.items_of data = Ok items
      ∧ parse_items netloc 0 items = Ok results
      ∧ (search netloc backend api_key query site_filter time_range top_k w).1
        = Py.slice_to (_sort_by_priority results) top_k.
Proof.
  destruct (SearchFacts.search_cases netloc backend api_key query site_filter time_range top_k w)
    as [E|(data & results & Hb & Hp & E)]; [by left|right].
  unfold Search.payload_results in Hp.
  apply bind_inv in Hp as (v & Hv & Hp).
  apply bind_inv in Hp as (items & Hit & Hp).
  exists data, items, results. split; [done|]. split; [|done].
  unfold Hits.items_of. rewrite Hv. exact Hit.
Qed.

Lemma payload_results_items (data : pyval) (items : list pyval) :
  Hits.items_of data = Ok items →
  Search.payload_results netloc data = parse_items netloc 0 items.
Proof.
  unfold Hits.items_of, Search.payload_results. intros H.
  apply bind_inv in H as (v & Hv & H). rewrite Hv. simpl. rewrite H. done.
Qed.

End Facts.

End SearchMore.

(** X9.  Every call of [search] sends exactly one request, whatever the
    outcome.  Its [num] is [top_k] capped at 10; it carries no date
    restriction exactly when the time range is "any", and a time range other
    than any, week and month is sent as a year's. *)
Theorem search_one_request (netloc : string → res string)
    (backend : SearchParams → backend_reply) (api_key : string)
    (query : string) (site_filter : option (list string)) (time_range : string)
    (top_k : Z) (w : Net) :
  let params := build_params api_key query site_filter time_range top_k in
  sent (search netloc backend api_key query site_filter time_range top_k w).2
  = (sent w ++ [params])%list
  ∧ p_num params = Z.min top_k 10
  ∧ p_num params ≤ 10
  ∧ (p_dateRestrict params = None ↔ time_range = "any")
  ∧ (time_range ≠ "any" → time_range ≠ "week" → time_range ≠ "month" →
     p_dateRestrict params = Some "y1").
Proof.
  cbv zeta. split; [apply SearchFacts.search_sent|].
  split; [reflexivity|]. split; [simpl; lia|].
  simpl. unfold date_restrict. split.
  - destruct (String.eqb time_range "any") eqn:E.
    + apply String.eqb_eq in E. by split.
    + apply String.eqb_neq in E. by split.
  - intros H1 H2 H3.
    apply String.eqb_neq in H1, H2, H3. by rewrite H1, H2, H3.
Qed.

Lemma search_one_request_witness :
  p_dateRestrict (build_params "k" "argo floats" None "decade" 50) = Some "y1".
Proof.
  apply (search_one_request Url.netloc ex_backend "k" "argo floats" None "decade" 50 (mkNet []));
    discriminate.
Defined.

(** X10.  The site filter only extends the query: without a filter, or with
    an empty one, the query is sent as it is; otherwise it is followed by
    the [site:] clauses joined with OR, each domain of the filter being
    named.  The user's query is always the beginning of what is sent. *)
Theorem site_filter_extends_query (api_key query : string)
    (site_filter : option (list string)) (time_range : string) (top_k : Z) :
  let q := p_q (build_params api_key query site_filter time_range top_k) in
  Str.startswith q query = true
  ∧ (site_filter = None ∨ site_filter = Some [] → q = query)
  ∧ (∀ d ds, site_filter = Some (d :: ds) →
       q = query ++ " (" ++ Str.join " OR " (map (fun x => "site:" ++ x) (d :: ds)) ++ ")"
       ∧ ∀ x, x ∈ d :: ds → Str.contains ("site:" ++ x) q = true).
Proof.
  cbv zeta. split; [|split].
  - destruct site_filter as [[|d ds]|]; simpl.
    + apply SearchMore.startswith_refl.
    + apply EnhanceFacts.prefix_of_append.
    + apply SearchMore.startswith_refl.
  - by intros [-> | ->].
  - intros d ds ->. split; [reflexivity|].
    intros x Hx.
    change (p_q (build_params api_key query (Some (d :: ds)) time_range top_k))
      with (query ++ " (" ++ Str.join " OR " (map (fun x => "site:" ++ x) (d :: ds)) ++ ")").
    apply StrFacts.contains_app_l, StrFacts.contains_app_l, StrFacts.contains_app_r.
    apply SearchMore.join_contains.
    by apply (list_elem_of_fmap_2 (fun x => "site:" ++ x)).
Qed.

Lemma site_filter_extends_query_witness :
  Str.contains "site:euro-argo.eu"
    (p_q (build_params "k" "argo floats" (Some [ "argo.ucsd.edu"; "euro-argo.eu" ]) "year" 5))
  = true.
Proof.
  apply (site_filter_extends_query "k" "argo floats"
           (Some [ "argo.ucsd.edu"; "euro-argo.eu" ]) "year" 5)
    with (d := "argo.ucsd.edu") (ds := [ "euro-argo.eu" ]).
  - reflexivity.
  - rewrite !elem_of_cons. auto.
Defined.

Example site_filter_example :
  p_q (build_params "k" "argo floats" (Some [ "argo.ucsd.edu"; "euro-argo.eu" ]) "year" 5)
  = "argo floats (site:argo.ucsd.edu OR site:euro-argo.eu)"
  ∧ p_q (build_params "k" "argo floats" (Some [ "incois.gov.in" ]) "year" 5)
    = "argo floats (site:incois.gov.in)".
Proof. split; reflexivity. Qed.

(** X11.  Only the deny-list and the cap remove hits.  When the payload
    parses, the list given to the ranker has one result for each hit with
    an allowed domain and no other; when the cap is not below their number,
    every such hit is in the output of [search], with its position as rank,
    its own link, title and snippet, and no [updated] date. *)
Theorem allowed_hits_all_returned (netloc : string → res string)
    (backend : SearchParams → backend_reply) (api_key : string)
    (query : string) (site_filter : option (list string)) (time_range : string)
    (top_k : Z) (w : Net) (data : pyval) (items : list pyval)
    (results : list SearchResult) :
  backend (build_params api_key query site_filter time_range top_k) = Payload data →
  Hits.items_of data = Ok items →
  parse_items netloc 0 items = Ok results →
  length results = length (List.filter (Hits.allowed netloc) items)
  ∧ (Z.of_nat (length results) ≤ top_k →
     ∀ i item,
       items !! i = Some item → Hits.allowed netloc item = true →
       ∃ r, r ∈ (search netloc backend api_key query site_filter time_range top_k w).1
            ∧ rank r = Z.of_nat i + 1
            ∧ Py.get item "link" (PyStr "") = Ok (PyStr (url r))
            ∧ Py.get item "title" (PyStr "") = Ok (PyStr (title r))
            ∧ Py.get item "snippet" (PyStr "") = Ok (PyStr (snippet r))
            ∧ updated r = PyNone).
Proof.
  intros Hb Hitems Hp.
  split; [by apply (HitFacts.parse_items_count netloc items 0)|].
  intros Hcap i item Hi Ha.
  destruct (HitFacts.parse_items_complete netloc items 0 results i item Hp Hi Ha)
    as (r & Hr & Hpr).
  exists r.
  assert (Hout : (search netloc backend api_key query site_filter time_range top_k w).1
                 = _sort_by_priority results).
  { rewrite (SearchFacts.search_parsed netloc backend api_key _ _ _ _ w data results Hb)
      by (by rewrite (SearchMore.payload_results_items netloc data items Hitems)).
    unfold Py.slice_to.
    replace (top_k <? 0) with false by (symmetry; apply Z.ltb_ge; lia).
    apply take_ge. unfold _sort_by_priority.
    rewrite (Permutation_length (SortFacts.sorted_perm priority_score results)). lia. }
  split.
  { rewrite Hout. unfold _sort_by_priority. by rewrite SortFacts.sorted_perm. }
  pose proof (ParseFacts.parse_item_some _ _ _ _ Hpr) as (Hrk & Hlink & _).
  pose proof (HitFacts.parse_item_fields _ _ _ _ Hpr) as (Hti & Hsn & Hup & _).
  repeat split; try done; lia.
Qed.

Lemma allowed_hits_all_returned_witness :
  ∃ r, r ∈ (search Url.netloc ex_backend "k" "argo floats" None "year" 5 (mkNet [])).1
       ∧ rank r = Z.of_nat 2 + 1
       ∧ Py.get (ex_hit "https://argo.ucsd.edu/about" "About Argo") "link" (PyStr "")
         = Ok (PyStr (url r))
       ∧ Py.get (ex_hit "https://argo.ucsd.edu/about" "About Argo") "title" (PyStr "")
         = Ok (PyStr (title r))
       ∧ Py.get (ex_hit "https://argo.ucsd.edu/about" "About Argo") "snippet" (PyStr "")
         = Ok (PyStr (snippet r))
       ∧ updated r = PyNone.
Proof.
  refine (proj2 (allowed_hits_all_returned Url.netloc ex_backend "k" "argo floats" None
                   "year" 5 (mkNet []) _ _ _ eq_refl eq_refl eq_refl) _ 2%nat _ eq_refl eq_refl).
  vm_compute. discriminate.
Defined.

(** X12.  The rank identifies the hit: the results [search] returns have
    pairwise distinct ranks, each between 1 and the number of hits of the
    payload; so no two of them tie, and the output is in strictly ascending
    key order. *)
Theorem search_ranks_distinct (netloc : string → res string)
    (backend : SearchParams → backend_reply) (api_key : string)
    (query : string) (site_filter : option (list string)) (time_range : string)
    (top_k : Z) (w : Net) :
  NoDup (map rank (search netloc backend api_key query site_filter time_range top_k w).1)
  ∧ StronglySorted Strict.score_lt
      (search netloc backend api_key query site_filter time_range top_k w).1
  ∧ (∀ data items,
       backend (build_params api_key query site_filter time_range top_k) = Payload data →
       Hits.items_of data = Ok items →
       Forall (fun r => 1 ≤ rank r ≤ Z.of_nat (length items))
         (search netloc backend api_key query site_filter time_range top_k w).1).
Proof.
  destruct (SearchMore.search_payload netloc backend api_key query site_filter time_range top_k w)
    as [E|(data & items & results & Hb & Hit & Hp & E)]; rewrite E.
  { split; [constructor|]. split; constructor. }
  destruct (HitFacts.parse_items_ranks netloc items 0 results Hp) as [Hinc Hrange].
  destruct (SearchMore.slice_is_take (_sort_by_priority results) top_k) as [n ->].
  assert (Hnd : NoDup (map rank (_sort_by_priority results))).
  { unfold _sort_by_priority. rewrite SortFacts.sorted_perm. by apply HitFacts.lt_NoDup. }
  assert (Hnd' : NoDup (map rank (take n (_sort_by_priority results)))).
  { apply (sublist_NoDup _ (map rank (_sort_by_priority results))); [exact Hnd|].
    apply (fmap_sublist rank), sublist_take. }
  split; [done|]. split.
  - apply SearchMore.strictly_sorted; [|done].
    apply SearchMore.take_sorted. apply (SortFacts.sorted_sorted priority_score).
  - intros data' items' Hb' Hit'.
    rewrite Hb in Hb'. injection Hb' as <-. rewrite Hit in Hit'. injection Hit' as <-.
    rewrite Forall_forall in Hrange |- *. intros r Hr.
    apply subseteq_take in Hr. unfold _sort_by_priority in Hr.
    rewrite SortFacts.sorted_perm in Hr. specialize (Hrange r Hr). simpl in Hrange. lia.
Qed.

Lemma search_ranks_distinct_witness :
  Forall (fun r => 1 ≤ rank r ≤ 4)
    (search Url.netloc ex_backend "k" "argo floats" None "year" 5 (mkNet [])).1.
Proof.
  refine (proj2 (proj2 (search_ranks_distinct Url.netloc ex_backend "k" "argo floats" None
                          "year" 5 (mkNet []))) _ _ eq_refl eq_refl).
Defined.

(** X13.  A cap of 0 gives no results.  A negative cap is a slice from the
    end: [search] then returns the ranked list without its last [-top_k]
    results. *)
Theorem search_nonpositive_cap (netloc : string → res string)
    (backend : SearchParams → backend_reply) (api_key : string)
    (query : string) (site_filter : option (list string)) (time_range : string)
    (top_k : Z) (w : Net) :
  (top_k = 0 →
   (search netloc backend api_key query site_filter time_range top_k w).1 = [])
  ∧ (top_k < 0 →
     ∀ data results,
       backend (build_params api_key query site_filter time_range top_k) = Payload data →
       Search.payload_results netloc data = Ok results →
       (search netloc backend api_key query site_filter time_range top_k w).1
       = take (length results - Z.to_nat (- top_k)) (_sort_by_priority results)).
Proof.
  split.
  - intros ->.
    destruct (SearchFacts.search_cases netloc backend api_key query site_filter time_range 0 w)
      as [E|(data & results & _ & _ & E)]; rewrite E; [done|].
    reflexivity.
  - intros Hk data results Hb Hp.
    rewrite (SearchFacts.search_parsed netloc backend api_key _ _ _ _ w data results Hb Hp).
    unfold Py.slice_to. replace (top_k <? 0) with true by (symmetry; apply Z.ltb_lt; lia).
    f_equal. unfold _sort_by_priority.
    rewrite (Permutation_length (SortFacts.sorted_perm priority_score results)). lia.
Qed.

Lemma search_nonpositive_cap_witness :
  (search Url.netloc ex_backend "k" "argo floats" None "year" 0 (mkNet [])).1 = []
  ∧ map rank (search Url.netloc ex_backend "k" "argo floats" None "year" (-1) (mkNet [])).1
    = [4; 3].
Proof.
  split.
  - by apply (search_nonpositive_cap Url.netloc ex_backend "k" "argo floats" None "year" 0
                (mkNet [])).
  - erewrite (proj2 (search_nonpositive_cap Url.netloc ex_backend "k" "argo floats" None
                       "year" (-1) (mkNet [])) ltac:(lia) _ _ eq_refl eq_refl).
    reflexivity.
Defined.


(** ** More on the endpoints of api.py *)

Module ApiFacts.

Lemma api_result_ok (r : SearchResult) :
  Dates.text_or_none (published r) = true → Dates.text_or_none (updated r) = true →
  api_result r = Ok r.
Proof.
  destruct r as [rk ti u sn pub upd src]. simpl. intros Hp Hu. unfold api_result. simpl.
  destruct pub; try done; destruct upd; try done.
Qed.

Lemma api_result_bad (r : SearchResult) :
  Dates.text_or_none (published r) = false → raises (api_result r).
Proof.
  destruct r as [rk ti u sn pub upd src]. simpl. intros Hp. unfold api_result. simpl.
  destruct pub; try done; by exists ValidationError.
Qed.

Lemma mapM_ok (l : list SearchResult) :
  (∀ r, r ∈ l → api_result r = Ok r) → mapM api_result l = Ok l.
Proof.
  induction l as [|x l IH]; intros H; simpl; [done|].
  rewrite (H x) by (by left). res_simpl.
  rewrite IH; [done|]. intros r Hr. apply H. by right.
Qed.

Lemma mapM_raises (l : list SearchResult) (r : SearchResult) :
  r ∈ l → raises (api_result r) → raises (mapM api_result l).
Proof.
  intros Hin [e He]. induction Hin as [r l|r x l Hin IH]; simpl.
  - rewrite He. by exists e.
  - destruct (api_result x) as [y|ex]; [|by exists ex].
    res_simpl. destruct (IH He) as [el Hl]. rewrite Hl. by exists el.
Qed.

Section Facts.
Variable netloc : string → res string.
Variable backend : SearchParams → backend_reply.
Variable api_key : string.

(** [search] itself never sets [updated]. *)
Lemma search_updated query site_filter time_range top_k w (r : SearchResult) :
  r ∈ (search netloc backend api_key query site_filter time_range top_k w).1 →
  updated r = PyNone.
Proof.
  intros Hr.
  destruct (SearchMore.search_payload netloc backend api_key query site_filter time_range top_k w)
    as [E|(data & items & results & _ & _ & Hp & E)]; rewrite E in Hr.
  { by apply elem_of_nil in Hr. }
  apply CapFacts.slice_sorted_elem in Hr.
  clear E. revert Hp Hr. generalize 0. revert results.
  induction items as [|item items IH]; intros results idx; simpl.
  - intros [= <-] Hr. by apply elem_of_nil in Hr.
  - intros H Hr.
    apply bind_inv in H as (parsed & Hp & H).
    apply bind_inv in H as (rest & Hrest & H). injection H as <-.
    destruct parsed as [r0|]; [|by apply (IH rest (idx + 1))].
    apply elem_of_cons in Hr as [->|Hr]; [|by apply (IH rest (idx + 1))].
    by apply HitFacts.parse_item_fields in Hp as (_ & _ & Hup & _).
Qed.

End Facts.

End ApiFacts.

(** X14.  For a valid request the [/search] endpoint answers with exactly
    the results of [search], unchanged and in the same order, provided each
    carries a date that is a string or no date; at most [top_k] of them.
    If the page metadata of a returned hit held a date that is not a
    string, the endpoint answers 500 although [search] itself succeeded. *)
Theorem api_search_passes_results (netloc : string → res string)
    (backend : SearchParams → backend_reply) (api_key : string)
    (request : SearchRequest) (w : Net) :
  Endpoint.valid request →
  let found :=
    (search netloc backend api_key (query request) (site_filter request)
       (time_range request) (top_k request) w).1 in
  ((∀ r, r ∈ found → Dates.text_or_none (published r) = true) →
   (api_search netloc backend api_key request w).1 = Http200 found)
  ∧ ((∃ r, r ∈ found ∧ Dates.text_or_none (published r) = false) →
     (api_search netloc backend api_key request w).1 = HTTPException 500 "Search failed")
  ∧ (∀ results,
       (api_search netloc backend api_key request w).1 = Http200 results →
       results = found ∧ Z.of_nat (length results) ≤ top_k request).
Proof.
  intros [Hk Ht]. cbv zeta.
  pose proof (ApiFacts.search_updated netloc backend api_key (query request)
                (site_filter request) (time_range request) (top_k request) w) as Hup.
  assert (Hlen : Z.of_nat (length
            (search netloc backend api_key (query request) (site_filter request)
               (time_range request) (top_k request) w).1) ≤ top_k request).
  { destruct (SearchFacts.search_cases netloc backend api_key (query request)
                (site_filter request) (time_range request) (top_k request) w)
      as [E|(data & results & _ & _ & E)]; rewrite E.
    - simpl. lia.
    - apply CapFacts.slice_length. lia. }
  unfold api_search.
  replace ((top_k request <? 1) || (top_k request >? 10)) with false
    by (symmetry; apply orb_false_iff; lia).
  apply (EndpointFacts.time_range_check netloc api_key) in Ht. rewrite Ht. simpl.
  destruct (search netloc backend api_key (query request) (site_filter request)
              (time_range request) (top_k request) w) as [found w'].
  simpl in *.
  assert (Hgood : (∀ r, r ∈ found → Dates.text_or_none (published r) = true) →
                  mapM api_result found = Ok found).
  { intros Hall. apply ApiFacts.mapM_ok. intros r Hr.
    apply ApiFacts.api_result_ok; [by apply Hall|]. by rewrite (Hup r Hr). }
  split; [|split].
  - intros Hall. by rewrite (Hgood Hall).
  - intros (r & Hr & Hbad).
    destruct (ApiFacts.mapM_raises found r Hr (ApiFacts.api_result_bad r Hbad)) as [e ->].
    done.
  - intros results.
    destruct (mapM api_result found) as [rs|e] eqn:E; simpl; [|done].
    intros [= <-].
    assert (Hall : ∀ r, r ∈ found → Dates.text_or_none (published r) = true).
    { intros r Hr. destruct (Dates.text_or_none (published r)) eqn:Hp; [done|].
      destruct (ApiFacts.mapM_raises found r Hr (ApiFacts.api_result_bad r Hp)) as [e He].
      congruence. }
    assert (rs = found) as -> by (specialize (Hgood Hall); congruence).
    split; [reflexivity | exact Hlen].
Qed.

Lemma api_search_passes_results_witness :
  (api_search Url.netloc ex_backend_numeric_date "k" (ex_request "year" 3) (mkNet [])).1
  = HTTPException 500 "Search failed"
  ∧ (api_search Url.netloc ex_backend "k" (ex_request "year" 3) (mkNet [])).1
    = Http200 (search Url.netloc ex_backend "k" "argo floats" None "year" 3 (mkNet [])).1.
Proof.
  assert (Hv : Endpoint.valid (ex_request "year" 3)).
  { unfold Endpoint.valid, Endpoint.time_ranges. simpl. split; [lia|].
    rewrite !elem_of_cons. auto. }
  split.
  - apply (api_search_passes_results Url.netloc ex_backend_numeric_date "k"
             (ex_request "year" 3) (mkNet []) Hv).
    eexists. split; [vm_compute; left|]; reflexivity.
  - apply (api_search_passes_results Url.netloc ex_backend "k"
             (ex_request "year" 3) (mkNet []) Hv).
    apply Forall_forall. vm_compute. repeat constructor.
Defined.

(** X15.  [/health] cannot tell a failing backend from a working one: it
    spends one search request (query "test", one result, a year's range)
    and answers healthy with the search tool "ok" whatever the backend
    replied, [search] having absorbed every failure. *)
Theorem health_check_always_ok (netloc : string → res string)
    (backend : SearchParams → backend_reply) (api_key : string) (w : Net) :
  (∃ key_state, (health_check netloc backend api_key w).1 = Healthy "ok" "ok" key_state)
  ∧ sent (health_check netloc backend api_key w).2
    = (sent w ++ [mkParams api_key cx "test" 1 "active" (Some "y1")])%list
  ∧ (Search.backend_failed netloc (backend (mkParams api_key cx "test" 1 "active" (Some "y1"))) →
     (search netloc backend api_key "test" None "year" 1 w).1 = []
     ∧ ∃ key_state, (health_check netloc backend api_key w).1 = Healthy "ok" "ok" key_state).
Proof.
  pose proof (SearchFacts.search_sent netloc backend api_key "test" None "year" 1 w) as Hs.
  pose proof (SearchFacts.search_failed netloc backend api_key "test" None "year" 1 w) as Hf.
  unfold health_check.
  destruct (search netloc backend api_key "test" None "year" 1 w) as [found w'].
  simpl in *. split; [by eexists|]. split; [exact Hs|].
  intros H. split; [by apply Hf|by eexists].
Qed.

Lemma health_check_always_ok_witness :
  (search Url.netloc ex_backend_malformed "k" "test" None "year" 1 (mkNet [])).1 = []
  ∧ ∃ key_state,
      (health_check Url.netloc ex_backend_malformed "k" (mkNet [])).1
      = Healthy "ok" "ok" key_state.
Proof.
  apply (health_check_always_ok Url.netloc ex_backend_malformed "k" (mkNet [])).
  by exists AttributeError.
Defined.


(** ** More on the classifier *)

Module IntentFacts.
Import Agent Classify.

Lemma any_pattern_spec (patterns : list string) (text : string) :
  any_pattern patterns text = true
  ↔ ∃ p, p ∈ patterns ∧ Str.contains p text = true.
Proof.
  unfold any_pattern, re_search. rewrite existsb_exists.
  split; intros (p & Hp & Hc); exists p; by rewrite ?list_elem_of_In in *.
Qed.

(** A match survives when text is added around. *)
Lemma any_pattern_embed (patterns : list string) (T pre post : string) :
  any_pattern patterns (Str.lower T) = true →
  any_pattern patterns (Str.lower (pre ++ T ++ post)) = true.
Proof.
  rewrite !any_pattern_spec. intros (p & Hp & Hc). exists p. split; [done|].
  rewrite !StrFacts.lower_app. by apply StrFacts.contains_embed.
Qed.

Lemma intents_NoDup : NoDup (map fst intent_patterns).
Proof.
  repeat (constructor; [rewrite ?elem_of_cons, ?elem_of_nil; intuition discriminate|]).
  constructor.
Qed.

(** Two positions of the table hold different intents. *)
Lemma intents_differ (i j : nat) (A B : string) (pa pb : list string) :
  intent_patterns !! i = Some (A, pa) → intent_patterns !! j = Some (B, pb) →
  i ≠ j → A ≠ B.
Proof.
  intros Hi Hj Hne ->. apply Hne.
  apply (NoDup_lookup (map fst intent_patterns) i j B intents_NoDup).
  - change (map fst intent_patterns) with (fst <$> intent_patterns).
    by rewrite list_lookup_fmap, Hi.
  - change (map fst intent_patterns) with (fst <$> intent_patterns).
    by rewrite list_lookup_fmap, Hj.
Qed.

End IntentFacts.

(** A pattern that contains a pattern of an earlier-declared intent never
    selects its own intent. *)
Lemma later_pattern_shadowed (T : string) (i j : nat) (A B : string)
    (pa pb : list string) (q p : string) :
  Agent.intent_patterns !! i = Some (A, pa) →
  Agent.intent_patterns !! j = Some (B, pb) →
  (i < j)%nat →
  q ∈ pa → p ∈ pb → Str.contains q p = true →
  Agent.re_search p (Str.lower T) = true →
  Agent.classify_intent T ≠ B
  ∧ ∃ k pk, (k ≤ i)%nat ∧ Agent.intent_patterns !! k = Some (Agent.classify_intent T, pk).
Proof.
  intros Hi Hj Hij Hq Hp Hqp Hm.
  assert (Hmatch : Classify.matches_at i (Str.lower T)).
  { exists A, pa. split; [done|]. apply IntentFacts.any_pattern_spec.
    exists q. split; [done|]. by apply (StrFacts.contains_trans q p). }
  destruct (ClassifyFacts.classify_first T i Hmatch) as (k & pk & Hk & Hlk & _).
  split; [|by exists k, pk].
  apply (IntentFacts.intents_differ k j _ _ pk pb Hlk Hj). lia.
Qed.

(** X16.  Three patterns of the table are dead.  "status of argo floats in
    arabian sea" (of [indian_ocean_status]), "nearest argo floats to" and
    "find argo floats" (of [nearest_floats_concept]) contain "argo floats",
    a pattern of the first intent: every text that matches one of them is
    classified [program_overview], never the intent that lists it. *)
Theorem argo_floats_shadows_later_patterns (T p : string) :
  p ∈ Shadow.shadowed →
  Agent.re_search p (Str.lower T) = true →
  Agent.classify_intent T = "program_overview"
  ∧ ∃ j B pb, (0 < j)%nat ∧ Agent.intent_patterns !! j = Some (B, pb) ∧ p ∈ pb
              ∧ Agent.classify_intent T ≠ B.
Proof.
  intros Hp Hm.
  assert (Hsome : ∃ j B pb, (0 < j)%nat ∧ Agent.intent_patterns !! j = Some (B, pb) ∧ p ∈ pb
                            ∧ Str.contains "argo floats" p = true).
  { unfold Shadow.shadowed in Hp. rewrite !elem_of_cons, elem_of_nil in Hp.
    destruct Hp as [->|[->|[->|[]]]].
    - exists 1%nat. eexists _, _. split; [lia|]. split; [reflexivity|].
      split; [rewrite !elem_of_cons; auto 10 | reflexivity].
    - exists 3%nat. eexists _, _. split; [lia|]. split; [reflexivity|].
      split; [rewrite !elem_of_cons; auto 10 | reflexivity].
    - exists 3%nat. eexists _, _. split; [lia|]. split; [reflexivity|].
      split; [rewrite !elem_of_cons; auto 10 | reflexivity]. }
  destruct Hsome as (j & B & pb & Hj & Hlj & Hpb & Hc).
  assert (Hq : "argo floats" ∈
               [ "what is argo"; "how does argo work"; "variables measured by argo";
                 "argo program"; "argo floats"; "argo network" ])
    by (rewrite !elem_of_cons; auto 10).
  destruct (later_pattern_shadowed T 0 j "program_overview" B _ pb "argo floats" p
              eq_refl Hlj Hj Hq Hpb Hc Hm) as (Hne & k & pk & Hk & Hlk).
  split.
  - assert (k = 0%nat) as -> by lia. simpl in Hlk. by injection Hlk.
  - by exists j, B, pb.
Qed.

Lemma argo_floats_shadows_later_patterns_witness :
  Agent.classify_intent "Please FIND ARGO FLOATS for me" = "program_overview"
  ∧ ∃ j B pb, (0 < j)%nat ∧ Agent.intent_patterns !! j = Some (B, pb)
              ∧ "find argo floats" ∈ pb
              ∧ Agent.classify_intent "Please FIND ARGO FLOATS for me" ≠ B.
Proof.
  apply (argo_floats_shadows_later_patterns "Please FIND ARGO FLOATS for me"
           "find argo floats").
  - unfold Shadow.shadowed. rewrite !elem_of_cons. auto.
  - reflexivity.
Defined.

(** X17.  Adding text before or after a query can only move it to an
    earlier-declared intent: if the query matches the intent at position
    [i], the extended query is classified as an intent at a position up to
    [i]; a query that matches [program_overview] keeps that intent under
    every extension. *)
Theorem extension_moves_to_earlier_intent (T pre post : string) (i : nat) :
  Classify.matches_at i (Str.lower T) →
  (∃ k pk, (k ≤ i)%nat
           ∧ Agent.intent_patterns !! k
             = Some (Agent.classify_intent (pre ++ T ++ post), pk))
  ∧ (i = 0%nat → Agent.classify_intent (pre ++ T ++ post) = "program_overview").
Proof.
  intros (A & pa & Hi & Hm).
  assert (Hext : Classify.matches_at i (Str.lower (pre ++ T ++ post))).
  { exists A, pa. split; [done|]. by apply IntentFacts.any_pattern_embed. }
  destruct (ClassifyFacts.classify_first _ i Hext) as (k & pk & Hk & Hlk & _).
  split; [by exists k, pk|].
  intros ->. assert (k = 0%nat) as -> by lia. simpl in Hlk. by injection Hlk.
Qed.

Lemma extension_moves_to_earlier_intent_witness :
  ∃ k pk, (k ≤ 2)%nat
          ∧ Agent.intent_patterns !! k
            = Some (Agent.classify_intent ("Bay of Bengal: " ++ "GDAC servers" ++ " please"), pk).
Proof.
  apply (extension_moves_to_earlier_intent "GDAC servers" "Bay of Bengal: " " please" 2).
  eexists _, _. split; reflexivity.
Defined.

(** X18.  The classification does not depend on letter case: two texts
    that agree up to the case of their letters get the same intent. *)
Theorem classify_intent_ignores_case (T1 T2 : string) :
  Agent.classify_intent (Str.lower T1) = Agent.classify_intent T1
  ∧ (Str.lower T1 = Str.lower T2 →
     Agent.classify_intent T1 = Agent.classify_intent T2).
Proof.
  split.
  - unfold Agent.classify_intent. by rewrite StrFacts.lower_idem.
  - intros H. unfold Agent.classify_intent. by rewrite H.
Qed.

Lemma classify_intent_ignores_case_witness :
  Agent.classify_intent "ARGO Map" = Agent.classify_intent "argo MAP".
Proof.
  apply (classify_intent_ignores_case "ARGO Map" "argo MAP"). reflexivity.
Defined.


(** ** api_adk.py *)

Module AdkFacts.

(** The text depends on the intent alone, for an intent of the table. *)
Lemma response_text_intent (intent q1 q2 : string) :
  intent ∈ Agent.intents →
  Adk.response_text intent q1 = Adk.response_text intent q2
  ∧ Adk.response_text intent q1 ∈ AdkTexts.canned.
Proof.
  unfold Agent.intents. simpl. rewrite !elem_of_cons, elem_of_nil.
  unfold AdkTexts.canned.
  intros [->|[->|[->|[->|[]]]]]; (split; [reflexivity|]);
    cbv [Adk.response_text String.eqb Ascii.eqb Bool.eqb];
    rewrite !elem_of_cons; auto 10.
Qed.

Lemma chat_endpoint_answer (now : string) (request : Adk.ChatRequest) :
  Adk.chat_endpoint now request
  = Adk.Answer (AdkTexts.answer_for now (Agent.classify_intent (Adk.query request))
                  (Adk.query request)).
Proof.
  unfold Adk.chat_endpoint. by rewrite EnhanceFacts.enhance_query_eq.
Qed.

End AdkFacts.

(** X19.  The chat endpoint of api_adk.py never fails and answers from a
    fixed table: its [intent] is the classification of the query, its text
    is one of four canned texts chosen by that intent alone (the fallback
    text with the user's query is never used), and its sources are always
    the same two domains.  Two queries of the same intent get the same
    answer. *)
Theorem chat_endpoint_canned_answer (now : string) (request other : Adk.ChatRequest) :
  (∃ text,
     Adk.chat_endpoint now request
     = Adk.Answer (Adk.mkFloatChatResponse text
                     (Agent.classify_intent (Adk.query request))
                     (Some [ "argo.ucsd.edu"; "ocean-ops.org" ]) now)
     ∧ text ∈ AdkTexts.canned)
  ∧ (Agent.classify_intent (Adk.query other) = Agent.classify_intent (Adk.query request) →
     Adk.chat_endpoint now other = Adk.chat_endpoint now request).
Proof.
  rewrite !AdkFacts.chat_endpoint_answer. unfold AdkTexts.answer_for.
  pose proof (ClassifyFacts.classify_member (Adk.query request)) as Hin.
  split.
  - eexists. split; [reflexivity|].
    by apply (AdkFacts.response_text_intent _ _ "").
  - intros E. rewrite E. do 2 f_equal.
    by apply AdkFacts.response_text_intent.
Qed.

Lemma chat_endpoint_canned_answer_witness :
  Adk.chat_endpoint "2025-01-01T00:00:00" (Adk.mkChatRequest "Where is the GDAC?" None)
  = Adk.chat_endpoint "2025-01-01T00:00:00" (Adk.mkChatRequest "argo ftp login" (Some "s1")).
Proof.
  symmetry.
  apply (chat_endpoint_canned_answer "2025-01-01T00:00:00"
           (Adk.mkChatRequest "argo ftp login" (Some "s1"))
           (Adk.mkChatRequest "Where is the GDAC?" None)).
  reflexivity.
Defined.

(** X20.  The [/search] endpoint of api_adk.py fails on every request: it
    reads [sources_used] from the chat answer, a field [FloatChatResponse]
    does not have, so the handler answers 500 "Search failed" - although the
    chat endpoint it delegates to has answered the same query. *)
Theorem adk_search_endpoint_always_fails (now : string) (request : Adk.SearchRequest) :
  Adk.search_endpoint now request = Adk.Failure 500 "Search failed"
  ∧ ∃ response,
      Adk.chat_endpoint now (Adk.mkChatRequest (Adk.s_query request) None)
      = Adk.Answer response
      ∧ Adk.FloatChatResponse_getattr response "sources_used" = Raise AttributeError
      ∧ Adk.FloatChatResponse_getattr response "sources"
        = Ok (PyList [ PyStr "argo.ucsd.edu"; PyStr "ocean-ops.org" ]).
Proof.
  unfold Adk.search_endpoint.
  rewrite AdkFacts.chat_endpoint_answer.
  split; [reflexivity|].
  eexists. split; [reflexivity|]. split; reflexivity.
Qed.


(** ** The Streamlit front ends *)

Module AppFacts.
Import App.

Section Table.
Variable rows : list (list pyval).

Lemma df_data_other (columns : list string) :
  ∀ (i : nat) (df : gmap string (list pyval)) (c : string),
    c ∉ columns → df_data_from i columns rows df !! c = df !! c.
Proof.
  induction columns as [|col columns IH]; intros i df c Hc; simpl; [done|].
  apply not_elem_of_cons in Hc as [Hne Hc].
  rewrite IH by done. by rewrite lookup_insert_ne.
Qed.

Lemma df_data_last (columns : list string) :
  ∀ (i : nat) (df : gmap string (list pyval)) (j : nat) (c : string),
    columns !! j = Some c →
    (∀ j', (j < j')%nat → columns !! j' ≠ Some c) →
    df_data_from i columns rows df !! c = Some (column_cells (i + j) rows).
Proof.
  induction columns as [|col columns IH]; intros i df j c Hj Hlast; [done|].
  destruct j as [|j]; simpl in *.
  - injection Hj as ->.
    rewrite df_data_other.
    + rewrite lookup_insert_eq. by rewrite Nat.add_0_r.
    + intros Hin. apply list_elem_of_lookup in Hin as [k Hk].
      apply (Hlast (S k)); [lia|done].
  - rewrite (IH (S i) _ j c Hj).
    + f_equal. f_equal. lia.
    + intros j' Hj'. apply (Hlast (S j')). lia.
Qed.

Lemma df_data_lengths (columns : list string) :
  ∀ (i : nat) (df : gmap string (list pyval)),
    (∀ c cells, df !! c = Some cells → length cells = length rows) →
    ∀ c cells, df_data_from i columns rows df !! c = Some cells →
               length cells = length rows.
Proof.
  induction columns as [|col columns IH]; intros i df Hdf c cells; simpl; [apply Hdf|].
  apply IH. intros c' cells'. rewrite lookup_insert_Some.
  intros [[_ <-]|[_ H]]; [|by apply (Hdf c')].
  unfold column_cells. by rewrite length_map.
Qed.

End Table.

Section Domains.




End Domains.

Lemma last_n_length {A : Type} (n : nat) (l : list A) :
  length (last_n n l) = Nat.min n (length l).
Proof. unfold last_n. rewrite length_drop. lia. Qed.

End AppFacts.

Module AppAdkFacts.
Import AppAdk.

Section Sources.
Context {A : Type} `{EqDecision A}.

Lemma add_source_elem (used : list A) (source x : A) :
  x ∈ add_source used source ↔ x ∈ used ∨ x = source.
Proof.
  unfold add_source. destruct (decide (source ∈ used)) as [Hs|Hs].
  - split; [by left|]. intros [?| ->]; done.
  - rewrite elem_of_app, list_elem_of_singleton. done.
Qed.

Lemma add_source_NoDup (used : list A) (source : A) :
  NoDup used → NoDup (add_source used source).
Proof.
  intros Hnd. unfold add_source. destruct (decide (source ∈ used)) as [Hs|Hs]; [done|].
  apply NoDup_app. split; [done|]. split.
  - intros x Hx Hin. apply list_elem_of_singleton in Hin as ->. done.
  - apply NoDup_singleton.
Qed.

Lemma add_source_prefix (used : list A) (source : A) :
  used `prefix_of` add_source used source.
Proof.
  unfold add_source. destruct (decide (source ∈ used)); [done|].
  by apply prefix_app_r.
Qed.

Lemma update_elem (sources : list A) :
  ∀ (used : list A) (x : A),
    x ∈ update_sources used sources ↔ x ∈ used ∨ x ∈ sources.
Proof.
  induction sources as [|s sources IH]; intros used x; simpl.
  - rewrite elem_of_nil. tauto.
  - unfold update_sources in *. simpl. rewrite IH, add_source_elem, elem_of_cons. tauto.
Qed.

Lemma update_NoDup (sources : list A) :
  ∀ used : list A, NoDup used → NoDup (update_sources used sources).
Proof.
  induction sources as [|s sources IH]; intros used Hnd; [done|].
  unfold update_sources in *. simpl. by apply IH, add_source_NoDup.
Qed.

Lemma update_prefix (sources : list A) :
  ∀ used : list A, used `prefix_of` update_sources used sources.
Proof.
  induction sources as [|s sources IH]; intros used; [done|].
  unfold update_sources in *. simpl.
  etrans; [apply add_source_prefix | apply IH].
Qed.

Lemma update_known (sources : list A) :
  ∀ used : list A, (∀ x, x ∈ sources → x ∈ used) → update_sources used sources = used.
Proof.
  induction sources as [|s sources IH]; intros used Hall; [done|].
  unfold update_sources in *. simpl.
  assert (Hs : s ∈ used) by (apply Hall; by left).
  replace (add_source used s) with used
    by (unfold add_source; by rewrite decide_True).
  apply IH. intros x Hx. apply Hall. by right.
Qed.

End Sources.

End AppAdkFacts.

(** X21. The frame the chat page gives to [st.dataframe] for a table block
    exists exactly when there is a row and a column name.  It has one
    column per distinct name: a name occurring at position [j] and nowhere
    later holds column [j] (so an earlier column of the same name is
    lost), names outside the list hold nothing; every column has one cell
    per row, cell [k] being cell [j] of row [k], or [""] where that row is
    too short. *)
Theorem table_frame_columns (columns : list string) (rows : list (list pyval)) :
  (App.table_frame columns rows = None ↔ rows = [] ∨ columns = [])
  ∧ ∀ frame, App.table_frame columns rows = Some frame →
      (∀ c, c ∉ columns → frame !! c = None)
      ∧ (∀ j c, columns !! j = Some c →
                (∀ j', (j < j')%nat → columns !! j' ≠ Some c) →
                frame !! c = Some (App.column_cells j rows))
      ∧ (∀ c cells, frame !! c = Some cells → length cells = length rows)
      ∧ (∀ j k row, rows !! k = Some row →
                    App.column_cells j rows !! k = Some (default (PyStr "") (row !! j))).
Proof.
  split.
  - unfold App.table_frame. destruct rows, columns; split; try done; try tauto.
    intros [?|?]; done.
  - intros frame Hf. unfold App.table_frame in Hf.
    assert (frame = App.df_data_from 0 columns rows ∅) as ->
      by (destruct rows, columns; congruence).
    split; [|split; [|split]].
    + intros c Hc. by rewrite AppFacts.df_data_other.
    + intros j c Hj Hlast. by rewrite (AppFacts.df_data_last rows columns 0 ∅ j c).
    + apply AppFacts.df_data_lengths. intros c cells. by rewrite lookup_empty.
    + intros j k row Hk. unfold App.column_cells.
      change (map ?f rows) with (f <$> rows). by rewrite list_lookup_fmap, Hk.
Qed.

Lemma table_frame_columns_witness :
  App.df_data_from 0 [ "id"; "basin"; "id" ] ex_rows ∅ !! "id"
  = Some [ PyStr "extra"; PyStr "" ].
Proof.
  destruct (proj2 (table_frame_columns [ "id"; "basin"; "id" ] ex_rows)
              (App.df_data_from 0 [ "id"; "basin"; "id" ] ex_rows ∅) eq_refl)
    as (_ & Hlast & _).
  apply (Hlast 2%nat "id" eq_refl).
  intros [|[|[|j']]] Hlt; try lia; done.
Defined.


(** X23. The recent queries of the chat page are the last five of the
    history, newest first: the entry labelled [n] is the [n]-th query of
    the session, and [n] runs from the length of the history downwards. *)
Theorem recent_queries_labels {A : Type} (chat_history : list A) :
  length (App.recent_queries chat_history) = Nat.min 5 (length chat_history)
  ∧ ∀ i n chat, App.recent_queries chat_history !! i = Some (n, chat) →
      n = Z.of_nat (length chat_history) - Z.of_nat i
      ∧ 1 ≤ n
      ∧ chat_history !! Z.to_nat (n - 1) = Some chat.
Proof.
  unfold App.recent_queries. split.
  - by rewrite length_imap, length_reverse, AppFacts.last_n_length.
  - intros i n chat. rewrite list_lookup_imap.
    destruct (reverse (App.last_n 5 chat_history) !! i) as [x|] eqn:E; [|done].
    simpl. intros [= <- <-].
    apply reverse_lookup_Some in E as [E Hi].
    rewrite AppFacts.last_n_length in *.
    unfold App.last_n in E. rewrite lookup_drop in E.
    split; [done|]. split; [lia|].
    rewrite <- E. f_equal. lia.
Qed.

Lemma recent_queries_labels_witness :
  [ "q1"; "q2"; "q3"; "q4"; "q5"; "q6"; "q7" ] !! Z.to_nat (6 - 1) = Some "q6".
Proof.
  apply (proj2 (recent_queries_labels [ "q1"; "q2"; "q3"; "q4"; "q5"; "q6"; "q7" ])
           1%nat 6 "q6" eq_refl).
Defined.

(** X24. Recording the sources of a response in the ADK chat page keeps
    the session's list free of duplicates, only appends to it, ends with
    exactly the old and the new sources, and changes nothing when the same
    response is recorded again. *)
Theorem update_sources_no_duplicates {A : Type} `{EqDecision A}
    (sources_used sources : list A) :
  NoDup sources_used →
  NoDup (AppAdk.update_sources sources_used sources)
  ∧ sources_used `prefix_of` AppAdk.update_sources sources_used sources
  ∧ (∀ x, x ∈ AppAdk.update_sources sources_used sources
          ↔ x ∈ sources_used ∨ x ∈ sources)
  ∧ AppAdk.update_sources (AppAdk.update_sources sources_used sources) sources
    = AppAdk.update_sources sources_used sources.
Proof.
  intros Hnd. split; [by apply AppAdkFacts.update_NoDup|].
  split; [apply AppAdkFacts.update_prefix|].
  split; [apply AppAdkFacts.update_elem|].
  apply AppAdkFacts.update_known. intros x Hx.
  apply AppAdkFacts.update_elem. by right.
Qed.

Lemma update_sources_no_duplicates_witness :
  NoDup (AppAdk.update_sources [ "argo.ucsd.edu" ] [ "ocean-ops.org"; "argo.ucsd.edu"; "ocean-ops.org" ]).
Proof.
  apply (update_sources_no_duplicates [ "argo.ucsd.edu" ]
           [ "ocean-ops.org"; "argo.ucsd.edu"; "ocean-ops.org" ]).
  apply NoDup_singleton.
Defined.

(** X25. The ADK chat page shows nothing of an answer of the ADK chat
    endpoint: whatever the request, the JSON of the answer has neither
    the blocks nor the sources the page looks for, so the page renders no
    block and records no source, while the text of the answer sits under a
    key the page does not read. *)
Theorem adk_page_renders_no_answer (now : string) (request : Adk.ChatRequest) :
  ∃ r, Adk.chat_endpoint now request = Adk.Answer r
       ∧ AppAdk.blocks_of (Adk.FloatChatResponse_json r) = Ok (PyList [])
       ∧ AppAdk.sources_of (Adk.FloatChatResponse_json r) = Ok (PyList [])
       ∧ Py.get (Adk.FloatChatResponse_json r) "response" PyNone
         = Ok (PyStr (Adk.response r)).
Proof.
  rewrite AdkFacts.chat_endpoint_answer. eexists. split; [reflexivity|].
  repeat split.
Qed.

Example sidebar_example :
  App.sidebar_domains ex_sources = [ "argo.ucsd.edu"; "unknown"; "incois.gov.in" ]
  ∧ App.recent_queries [ "q1"; "q2"; "q3"; "q4"; "q5"; "q6"; "q7" ]
    = [ (7, "q7"); (6, "q6"); (5, "q5"); (4, "q4"); (3, "q3") ].
Proof. split; vm_compute; reflexivity. Qed.
